(** * JARVIS assistant: intent classification, dispatch and conversation loop

    A shallow embedding of [core/nlp_engine.py] and [core/jarvis.py].

    Text.  A Python [str] is modelled by [string], one character per code
    point, for text whose code points lie below 256.  [lower], [strip] and
    the [in] test are written out as Python defines them on that range.

    Floats.  The program never computes with a float: it returns the
    literals [0.3] and [0.85] and prints the CPU percentage it is handed.
    A float is represented by the decimal numeral Python shows for it
    (digits, a point, digits), which is how it reaches the user; two floats
    with the same numeral are the same float. *)

From Stdlib Require Import String Ascii List Bool NArith ZArith.
From Stdlib Require Import Decimal DecimalString.
From Stdlib Require Import Lia.
Import ListNotations.
Local Open Scope string_scope.

(** ** Python strings *)

Module PyStr.

Definition code (c : ascii) : N := N_of_ascii c.

Definition between (lo hi : N) (c : ascii) : bool :=
  (lo <=? code c)%N && (code c <=? hi)%N.

(** [str.isspace] on one character: TAB..CR, FS..US, space, NEL, NBSP. *)
Definition isspace (c : ascii) : bool :=
  between 9 13 c || between 28 32 c || (code c =? 133)%N || (code c =? 160)%N.

(** Upper-case letters below 256: A..Z and the Latin-1 capitals, the
    multiplication sign (215) apart. *)
Definition isupper (c : ascii) : bool :=
  between 65 90 c || between 192 214 c || between 216 222 c.

Definition lower_char (c : ascii) : ascii :=
  if isupper c then ascii_of_N (code c + 32) else c.

(** [s.lower()] *)
Fixpoint lower (s : string) : string :=
  match s with
  | EmptyString => EmptyString
  | String c r => String (lower_char c) (lower r)
  end.

(** [s.upper()], for the ASCII keys it is applied to. *)
Definition upper_char (c : ascii) : ascii :=
  if between 97 122 c then ascii_of_N (code c - 32) else c.

Fixpoint upper (s : string) : string :=
  match s with
  | EmptyString => EmptyString
  | String c r => String (upper_char c) (upper r)
  end.

Fixpoint lstrip (s : string) : string :=
  match s with
  | EmptyString => EmptyString
  | String c r => if isspace c then lstrip r else s
  end.

Fixpoint rstrip (s : string) : string :=
  match s with
  | EmptyString => EmptyString
  | String c r =>
      match rstrip r with
      | EmptyString => if isspace c then EmptyString else String c EmptyString
      | r' => String c r'
      end
  end.

(** [s.strip()] *)
Definition strip (s : string) : string := rstrip (lstrip s).

(** [kw in text] *)
Fixpoint contains (kw text : string) : bool :=
  prefix kw text ||
  match text with
  | EmptyString => false
  | String _ r => contains kw r
  end.

(** [x in (a, b, ...)] on strings *)
Definition mem (x : string) (l : list string) : bool :=
  existsb (String.eqb x) l.

(** [not s]: a string is falsy exactly when it has no character. *)
Definition falsy (s : string) : bool :=
  match s with EmptyString => true | String _ _ => false end.

(** Every character of [s] is white space. *)
Fixpoint only_spaces (s : string) : bool :=
  match s with
  | EmptyString => true
  | String c r => isspace c && only_spaces r
  end.

(** [s.split()]: the maximal runs of non-space characters. *)
Fixpoint split_from (cur : string) (s : string) : list string :=
  let flush := if falsy cur then [] else [cur] in
  match s with
  | EmptyString => flush
  | String c r =>
      if isspace c then (flush ++ split_from EmptyString r)%list
      else split_from (cur ++ String c EmptyString) r
  end.

Definition split (s : string) : list string := split_from EmptyString s.

(** What [kw in text] decides. *)
Definition Substring (kw text : string) : Prop :=
  exists pre post, text = pre ++ kw ++ post.

End PyStr.

(** ** Python floats, as numerals *)

(** [0.85%pyfloat] is the float Python writes [0.85]. *)
Inductive pyfloat : Set :=
  PyFloat (whole : Decimal.int) (frac : Decimal.uint).

Definition pyfloat_of_number (n : Number.number) : option pyfloat :=
  match n with
  | Number.Decimal (Decimal.Decimal i f) =>
      match f with
      | Nil => None
      | _ => Some (PyFloat i f)
      end
  | _ => None
  end.

Definition number_of_pyfloat (x : pyfloat) : option Number.number :=
  match x with
  | PyFloat i f => Some (Number.Decimal (Decimal.Decimal i f))
  end.

Declare Scope pyfloat_scope.
Delimit Scope pyfloat_scope with pyfloat.
Number Notation pyfloat pyfloat_of_number number_of_pyfloat : pyfloat_scope.

(** [str(x)] of a float, as an f-string inserts it. *)
Definition str_float (x : pyfloat) : string :=
  match x with
  | PyFloat i f => NilZero.string_of_int i ++ "." ++ NilZero.string_of_uint f
  end.

(** [str(n)] of an int. *)
Definition str_int (n : Z) : string := NilZero.string_of_int (Z.to_int n).

(** ** core/nlp_engine.py *)

Module NLPEngine.
Import PyStr.

Inductive CommandType : Set :=
| GREETING | SYSTEM_INFO | FILE_OPERATION | CONTROL | QUERY | UNKNOWN.

(** [CommandType[name]]: the member of that name, or [KeyError]. *)
Definition CommandType_getitem (name : string) : option CommandType :=
  if name =? "GREETING" then Some GREETING
  else if name =? "SYSTEM_INFO" then Some SYSTEM_INFO
  else if name =? "FILE_OPERATION" then Some FILE_OPERATION
  else if name =? "CONTROL" then Some CONTROL
  else if name =? "QUERY" then Some QUERY
  else if name =? "UNKNOWN" then Some UNKNOWN
  else None.

(** [self.commands]: a dict iterates in insertion order, so it is the
    list of its items. *)
Definition commands : list (string * list string) :=
  [ ("greeting", ["hello"; "hi"; "hey jarvis"; "good morning"; "good evening"]);
    ("system_info", ["what is my"; "tell me"; "show me"; "get"; "system"]);
    ("file_operation", ["open"; "read"; "write"; "delete"; "file"]);
    ("control", ["shutdown"; "restart"; "sleep"; "lock"]);
    ("query", ["how"; "what"; "why"; "when"; "where"]) ].

(** [any(keyword in text for keyword in keywords)] *)
Definition any_keyword (keywords : list string) (text : string) : bool :=
  existsb (fun keyword => contains keyword text) keywords.

(** The body of the [if] in [_detect_intent]: the enum lookup with its
    [except KeyError] fallback. *)
Definition intent_of_key (intent_type : string) : CommandType :=
  match CommandType_getitem (upper intent_type) with
  | Some c => c
  | None =>
      if mem intent_type ["file"; "file_operation"] then FILE_OPERATION
      else UNKNOWN
  end.

Fixpoint detect_in (items : list (string * list string)) (text : string)
  : CommandType :=
  match items with
  | [] => UNKNOWN
  | (intent_type, keywords) :: rest =>
      if any_keyword keywords text then intent_of_key intent_type
      else detect_in rest text
  end.

Definition _detect_intent (text : string) : CommandType :=
  detect_in commands text.

Definition _extract_entities (text : string) : list string :=
  let entities := [] in
  let words := split text in
  entities.

Definition _calculate_confidence (text : string) (intent : CommandType)
  : pyfloat :=
  match intent with
  | UNKNOWN => 0.3%pyfloat
  | _ => 0.85%pyfloat
  end.

(** The dict [analyze] returns. *)
Record Analysis : Set := mkAnalysis {
  text : string;
  intent : CommandType;
  entities : list string;
  confidence : pyfloat
}.

Definition analyze (text0 : string) : Analysis :=
  let text := strip (lower text0) in
  let intent := _detect_intent text in
  let entities := _extract_entities text in
  {| text := text;
     intent := intent;
     entities := entities;
     confidence := _calculate_confidence text intent |}.

End NLPEngine.

(** ** core/jarvis.py *)

Module JARVIS.
Import PyStr NLPEngine.

(** *** The collaborators *)

(** Modelled from the spec: [core/system_access.py] is not among the
    sources; section 3 gives the shape of what [get_system_info]
    returns: a CPU percentage (float), the available memory and the free
    disk space (text), the platform name and the processor count. *)
Record MemoryInfo : Set := { available : string }.
Record DiskInfo : Set := { free : string }.
Record SystemInfo : Set := {
  cpu_percent : pyfloat;
  memory : MemoryInfo;
  disk : DiskInfo;
  platform : string;
  cpu_count : Z
}.

(** One entry of [conversations.json]. *)
Record Interaction : Set := {
  timestamp : string;
  user_input : string;
  response : string
}.

(** The log file: missing, holding a JSON array of entries, or holding
    something [json.load] does not give a list for (an empty or
    half-written file among them). *)
Inductive FileState : Set :=
| Absent
| Stored (conversations : list Interaction)
| Unreadable.

(** The exceptions that can occur.  [KeyboardInterrupt] is the one that
    is not an [Exception]. *)
Inductive exn : Set :=
| EOFError
| KeyboardInterrupt
| OSError (msg : string)
| JSONDecodeError (msg : string).

Definition is_Exception (e : exn) : bool :=
  match e with KeyboardInterrupt => false | _ => true end.

Definition is_EOFError_or_KeyboardInterrupt (e : exn) : bool :=
  match e with EOFError | KeyboardInterrupt => true | _ => false end.

(** [str(e)] *)
Definition str_exn (e : exn) : string :=
  match e with
  | EOFError | KeyboardInterrupt => ""
  | OSError msg | JSONDecodeError msg => msg
  end.

Inductive Level : Set := DEBUG | INFO | ERROR.

Inductive Printed : Set :=
| TextModeNotice            (* "Voice input not available ... Type 'exit' to quit." *)
| HelpHeader                (* "=== How to enable voice input ===" *)
| HelpText (s : string).

(** What the assistant does to the outside, in the order it does it. *)
Inductive Event : Set :=
| Speak (text : string)                       (* voice_engine.speak *)
| PrintOut (what : Printed)                   (* print *)
| Input (prompt : string)                     (* input *)
| Listen (timeout : Z)                        (* voice_engine.listen *)
| Log (level : Level) (msg : string)          (* self.logger *)
| Analyze (text : string)                     (* nlp_engine.analyze *)
| GetSystemInfo                               (* system_access.get_system_info *)
| OpenLog (mode : string)                     (* open(log_file, mode) *)
| JsonLoad                                    (* json.load *)
| JsonDump (conversations : list Interaction). (* json.dump *)

(** The assistant and its surroundings.  [ai_name], [audio_backend],
    [install_instructions], [io_fault], [clock] and [probe] are given
    from outside and never change; the counters say how far into the
    three oracles the run is. *)
Record World : Type := mkWorld {
  ai_name : string;                    (* config.AI_NAME *)
  audio_backend : option string;       (* voice_engine.audio_backend *)
  install_instructions : string;       (* voice_engine.get_install_instructions() *)
  running : bool;                      (* self.running *)
  trace : list Event;                  (* oldest first *)
  log_file : FileState;                (* FLASH_DRIVE_PATH / "conversations.json" *)
  io_fault : nat -> option exn;        (* does the n-th file operation raise? *)
  io_ops : nat;
  clock : nat -> string;               (* datetime.now().isoformat(), read by read *)
  clock_reads : nat;
  probe : nat -> SystemInfo;           (* get_system_info(), call by call *)
  probe_calls : nat
}.

Definition set_running (b : bool) (w : World) : World :=
  mkWorld (ai_name w) (audio_backend w) (install_instructions w) b (trace w)
    (log_file w) (io_fault w) (io_ops w) (clock w) (clock_reads w)
    (probe w) (probe_calls w).

Definition record (e : Event) (w : World) : World :=
  mkWorld (ai_name w) (audio_backend w) (install_instructions w) (running w)
    (trace w ++ [e])%list (log_file w) (io_fault w) (io_ops w) (clock w)
    (clock_reads w) (probe w) (probe_calls w).

Definition set_log_file (f : FileState) (w : World) : World :=
  mkWorld (ai_name w) (audio_backend w) (install_instructions w) (running w)
    (trace w) f (io_fault w) (io_ops w) (clock w) (clock_reads w)
    (probe w) (probe_calls w).

Definition count_io (w : World) : World :=
  mkWorld (ai_name w) (audio_backend w) (install_instructions w) (running w)
    (trace w) (log_file w) (io_fault w) (S (io_ops w)) (clock w)
    (clock_reads w) (probe w) (probe_calls w).

Definition count_clock (w : World) : World :=
  mkWorld (ai_name w) (audio_backend w) (install_instructions w) (running w)
    (trace w) (log_file w) (io_fault w) (io_ops w) (clock w)
    (S (clock_reads w)) (probe w) (probe_calls w).

Definition count_probe (w : World) : World :=
  mkWorld (ai_name w) (audio_backend w) (install_instructions w) (running w)
    (trace w) (log_file w) (io_fault w) (io_ops w) (clock w)
    (clock_reads w) (probe w) (S (probe_calls w)).

(** *** Statements that change the world and may raise *)

Inductive Outcome (A : Type) : Type :=
| Returned (a : A)
| Raised (e : exn).
Arguments Returned {A} a.
Arguments Raised {A} e.

Definition M (A : Type) : Type := World -> Outcome A * World.

Definition ret {A} (a : A) : M A := fun w => (Returned a, w).

Definition raise {A} (e : exn) : M A := fun w => (Raised e, w).

Definition bind {A B} (c : M A) (k : A -> M B) : M B :=
  fun w =>
    match c w with
    | (Returned a, w') => k a w'
    | (Raised e, w') => (Raised e, w')
    end.

(** [try: body / except <caught> as e: handler e] *)
Definition try_except {A} (body : M A) (caught : exn -> bool)
    (handler : exn -> M A) : M A :=
  fun w =>
    match body w with
    | (Raised e, w') => if caught e then handler e w' else (Raised e, w')
    | r => r
    end.

Definition act (f : World -> World) : M unit := fun w => (Returned tt, f w).

Declare Scope py_scope.
Delimit Scope py_scope with py.
Notation "x <- c ;; k" := (bind c (fun x => k))
  (at level 61, c at next level, right associativity) : py_scope.
Notation "c ;; k" := (bind c (fun _ => k))
  (at level 61, right associativity) : py_scope.
Local Open Scope py_scope.

Definition emit (e : Event) : M unit := act (record e).

(** [VoiceEngine.speak] catches every [Exception] of the speech engine
    itself, so for its caller it is an output that returns. *)
Definition speak (text : string) : M unit := emit (Speak text).

Definition logger_info (msg : string) : M unit := emit (Log INFO msg).
Definition logger_error (msg : string) : M unit := emit (Log ERROR msg).

Definition nlp_analyze (text : string) : M Analysis :=
  emit (Analyze text) ;; ret (analyze text).

Definition get_system_info : M SystemInfo :=
  fun w => (Returned (probe w (probe_calls w)), count_probe (record GetSystemInfo w)).

Definition now_isoformat : M string :=
  fun w => (Returned (clock w (clock_reads w)), count_clock w).

(** One operation on the file system: it raises when the oracle says
    so. *)
Definition file_operation : M unit :=
  fun w =>
    match io_fault w (io_ops w) with
    | Some e => (Raised e, count_io w)
    | None => (Returned tt, count_io w)
    end.

(** [log_file.exists()] *)
Definition log_file_exists : M bool :=
  fun w => (Returned (match log_file w with Absent => false | _ => true end), w).

(** [open(log_file, 'r')] *)
Definition open_read : M unit := emit (OpenLog "r") ;; file_operation.

(** [json.load(f)], followed by the use of its result as a list. *)
Definition json_load : M (list Interaction) :=
  emit JsonLoad ;;
  file_operation ;;
  fun w =>
    match log_file w with
    | Stored conversations => (Returned conversations, w)
    | _ => (Raised (JSONDecodeError "Expecting value"), w)
    end.

(** [open(log_file, 'w')]: once it succeeds the file is empty. *)
Definition open_write : M unit :=
  emit (OpenLog "w") ;; file_operation ;; act (set_log_file Unreadable).

(** [json.dump(conversations, f, indent=2)]: the array is in the file
    when it returns; when it raises the file stays half-written. *)
Definition json_dump (conversations : list Interaction) : M unit :=
  emit (JsonDump conversations) ;;
  file_operation ;;
  act (set_log_file (Stored conversations)).

(** *** The handlers *)

Definition handle_greeting : M string :=
  ret "Good to see you. How can I assist you today?".

Definition handle_system_info (user_input : string) : M string :=
  system_info <- get_system_info ;;
  if contains "cpu" user_input || contains "processor" user_input then
    ret ("Your CPU usage is at " ++ str_float (cpu_percent system_info) ++ " percent")
  else if contains "memory" user_input || contains "ram" user_input then
    ret ("Memory available: " ++ available (memory system_info))
  else if contains "disk" user_input then
    ret ("Disk space free: " ++ free (disk system_info))
  else
    ret ("System is running on " ++ platform system_info ++ " with "
         ++ str_int (cpu_count system_info) ++ " processors").

Definition handle_file_operation (user_input : string) : M string :=
  ret "File operation feature coming soon".

Definition handle_control (user_input : string) : M string :=
  if contains "shutdown" user_input then ret "Shutdown command received"
  else if contains "restart" user_input then ret "Restart command received"
  else ret "Control command not recognized".

Definition handle_query (user_input : string) : M string :=
  ret "I will search for that information for you".

Definition process_command (user_input : string) : M string :=
  analysis <- nlp_analyze user_input ;;
  match intent analysis with
  | GREETING => handle_greeting
  | SYSTEM_INFO => handle_system_info user_input
  | FILE_OPERATION => handle_file_operation user_input
  | CONTROL => handle_control user_input
  | QUERY => handle_query user_input
  | UNKNOWN => ret "I did not understand that. Could you please repeat?"
  end.

(** *** The interaction log *)

(** The part of [save_interaction] that reads the log: nothing when the
    file is missing, else [json.load] of it. *)
Definition load_conversations : M (list Interaction) :=
  present <- log_file_exists ;;
  if present then open_read ;; json_load else ret [].

(** The [try] block of [save_interaction]. *)
Definition save_body (user_input response : string) : M unit :=
  now <- now_isoformat ;;
  let interaction :=
    {| timestamp := now; user_input := user_input; response := response |} in
  conversations <- load_conversations ;;
  let conversations := (conversations ++ [interaction])%list in
  open_write ;;
  json_dump conversations.

Definition save_interaction (user_input response : string) : M unit :=
  try_except
    (save_body user_input response)
    is_Exception
    (fun e => logger_error ("Error saving interaction: " ++ str_exn e)).

(** [for (u, r) in turns: save_interaction(u, r)] *)
Fixpoint save_all (turns : list (string * string)) : M unit :=
  match turns with
  | [] => ret tt
  | (u, r) :: rest => save_interaction u r ;; save_all rest
  end.

(** The entries that saving [turns] one after the other adds, the clock
    being read for the [k]-th time at the first. *)
Fixpoint entries_from (clock : nat -> string) (k : nat)
    (turns : list (string * string)) : list Interaction :=
  match turns with
  | [] => []
  | (u, r) :: rest =>
      {| timestamp := clock k; user_input := u; response := r |}
      :: entries_from clock (S k) rest
  end.

(** The log holds [entries]: the file has them, or is missing and there are
    none. *)
Definition log_holds (w : World) (entries : list Interaction) : Prop :=
  log_file w = Stored entries \/ (log_file w = Absent /\ entries = []).

(** *** Starting, looping, stopping *)

Definition stop : M unit :=
  act (set_running false) ;;
  speak "Powering down. Goodbye sir." ;;
  fun w => logger_info (ai_name w ++ " stopped") w.

(** What the console delivers to one [input] call; a console with
    nothing left is at end of file. *)
Inductive console_in : Set :=
| Line (s : string)
| CtrlC.

Definition input (prompt : string) (next : option console_in) : M string :=
  emit (Input prompt) ;;
  match next with
  | Some (Line s) => ret s
  | Some CtrlC => raise KeyboardInterrupt
  | None => raise EOFError
  end.

(** The [try: input / except (EOFError, KeyboardInterrupt): stop; break]
    of the text loop; [None] stands for the [break]. *)
Definition read_line (next : option console_in) : M (option string) :=
  try_except
    (user_input <- input "You: " next ;; ret (Some user_input))
    is_EOFError_or_KeyboardInterrupt
    (fun _ => stop ;; ret None).

Definition exit_words : list string := ["exit"; "quit"; "shutdown"; "power down"].

(** Lines 67 to 70: what text mode does with a line it processes. *)
Definition text_turn (user_input : string) : M unit :=
  logger_info ("User (text): " ++ user_input) ;;
  response <- process_command user_input ;;
  speak response ;;
  save_interaction user_input response.

(** Lines 79 to 82: the same in voice mode. *)
Definition voice_turn (user_input : string) : M unit :=
  logger_info ("User: " ++ user_input) ;;
  response <- process_command user_input ;;
  speak response ;;
  save_interaction user_input response.

(** The [while self.running] loop of text mode.  It returns what it left
    unread on the console. *)
Fixpoint text_loop (console : list console_in) (w : World) {struct console}
  : Outcome (list console_in) * World :=
  if running w then
    match console with
    | [] => (read_line None ;; ret []) w
    | item :: rest =>
        (r <- read_line (Some item) ;;
         match r with
         | None => ret rest
         | Some user_input =>
             if falsy user_input then text_loop rest
             else if mem (lower (strip user_input)) exit_words then
               stop ;; ret rest
             else
               text_turn user_input ;;
               text_loop rest
         end) w
    end
  else (Returned console, w).

(** The truth value of an [Optional[str]], as [if x:] and [if not x:] take
    it: [None] and the empty string count as false. *)
Definition truthy (heard : option string) : option string :=
  match heard with
  | Some s => if falsy s then None else Some s
  | None => None
  end.

(** The [while self.running] loop of voice mode, over what successive
    [listen] calls return.  Nothing in it clears [running]: a finite run
    ends by the interrupt that [main.py] catches. *)
Fixpoint voice_loop (heard : list (option string)) (w : World) {struct heard}
  : Outcome unit * World :=
  if running w then
    match heard with
    | [] => (emit (Listen 30) ;; raise KeyboardInterrupt) w
    | h :: rest =>
        (emit (Listen 30) ;;
         match truthy h with
         | Some user_input =>
             voice_turn user_input ;;
             voice_loop rest
         | None => voice_loop rest
         end) w
    end
  else (Returned tt, w).



End JARVIS.

(** ** Sample surroundings *)

Module Sample.
Import JARVIS.

(** A snapshot with 42.0 percent CPU load. *)
Definition snapshot : SystemInfo :=
  {| cpu_percent := 42.0%pyfloat;
     memory := {| available := "8.0 GB" |};
     disk := {| free := "120.5 GB" |};
     platform := "Linux";
     cpu_count := 8 |}.

Definition iso (n : nat) : string :=
  "2024-01-01T00:00:" ++ (if Nat.ltb n 10 then "0" else "") ++ str_int (Z.of_nat n).

(** A running assistant without microphone, an empty trace, no log file
    yet, and the file operations failing as [faults] says. *)
Definition world (faults : nat -> option exn) : World :=
  {| ai_name := "JARVIS";
     audio_backend := None;
     install_instructions := "pip install sounddevice";
     running := true;
     trace := [];
     log_file := Absent;
     io_fault := faults;
     io_ops := 0;
     clock := iso;
     clock_reads := 0;
     probe := fun _ => snapshot;
     probe_calls := 0 |}.

Definition healthy : World := world (fun _ => None).

(** The same, with the disk full at the second file operation (the
    [json.dump] of the first save). *)
Definition disk_full : World :=
  world (fun n => match n with 1 => Some (OSError "No space left on device") | _ => None end).

End Sample.

(** ** core/voice_engine.py *)

Module VoiceEngine.
Import PyStr JARVIS.



(** The two attributes of a [VoiceEngine] that its methods test. *)
Record Self : Set := {
  sr_available : bool;
  audio_backend : option string
}.



(** Calls into the speech engine, the audio libraries and the console. *)
Inductive Call : Set :=
| Say (text : string)               (* engine.say *)
| RunAndWait                        (* engine.runAndWait *)
| StopEngine                        (* engine.stop *)
| OpenMicrophone                    (* sr.Microphone() *)
| RecognizerListen (timeout : Z)    (* recognizer.listen(source, timeout=...) *)
| ImportSounddevice                 (* import sounddevice as sd *)
| Rec (frames : Z)                  (* sd.rec(frames, dtype='float32') *)
| Wait                              (* sd.wait *)
| MakeAudioData (sample_rate : Z)   (* the int16 bytes and sr.AudioData *)
| RecognizeGoogle                   (* recognizer.recognize_google *)
| PrintLine (line : string).        (* print *)

(** The devices: what was called so far, whether the n-th call raises, and
    what the recognizer makes of the n-th call when it answers. *)
Record Device : Type := mkDevice {
  calls : list Call;
  fault : nat -> option exn;
  transcript : nat -> string;
  count : nat
}.

Definition V (A : Type) : Type := Device -> Outcome A * Device.

Definition vret {A} (a : A) : V A := fun d => (Returned a, d).

Definition vbind {A B} (c : V A) (k : A -> V B) : V B :=
  fun d =>
    match c d with
    | (Returned a, d') => k a d'
    | (Raised e, d') => (Raised e, d')
    end.

(** [try: body / except Exception as e: handler e] *)
Definition vtry {A} (body : V A) (handler : exn -> V A) : V A :=
  fun d =>
    match body d with
    | (Raised e, d') => if is_Exception e then handler e d' else (Raised e, d')
    | r => r
    end.

Declare Scope voice_scope.
Delimit Scope voice_scope with voice.
Notation "x <- c ;; k" := (vbind c (fun x => k))
  (at level 61, c at next level, right associativity) : voice_scope.
Notation "c ;; k" := (vbind c (fun _ => k))
  (at level 61, right associativity) : voice_scope.
Local Open Scope voice_scope.

(** A call that may raise. *)
Definition call (c : Call) : V unit :=
  fun d =>
    let d' := mkDevice (calls d ++ [c])%list (fault d) (transcript d) (S (count d)) in
    match fault d (count d) with
    | Some e => (Raised e, d')
    | None => (Returned tt, d')
    end.

(** [print(line)] *)
Definition print (line : string) : V unit :=
  fun d =>
    (Returned tt, mkDevice (calls d ++ [PrintLine line])%list (fault d) (transcript d) (count d)).

(** [recognizer.recognize_google(audio)] *)
Definition recognize_google : V string :=
  fun d =>
    match call RecognizeGoogle d with
    | (Returned _, d') => (Returned (transcript d (count d)), d')
    | (Raised e, d') => (Raised e, d')
    end.

Definition speak (text : string) : V unit :=
  vtry
    (call (Say text) ;;
     call RunAndWait)
    (fun e =>
       vtry
         (call StopEngine ;;
          call (Say text) ;;
          call RunAndWait)
         (fun _ => print ("Error in text-to-speech: " ++ str_exn e))).

Definition listen (self : Self) (timeout : Z) : V (option string) :=
  if negb (sr_available self) then vret None
  else
    match audio_backend self with
    | Some backend =>
        if backend =? "pyaudio" then
          vtry
            (call OpenMicrophone ;;
             call (RecognizerListen timeout) ;;
             text <- recognize_google ;;
             vret (Some (lower text)))
            (fun e =>
               print ("Audio error (pyaudio): " ++ str_exn e) ;;
               vret None)
        else if backend =? "sounddevice" then
          vtry
            (call ImportSounddevice ;;
             let sample_rate := 16000%Z in
             let duration := Z.min timeout 10 in
             call (Rec (duration * sample_rate)) ;;
             call Wait ;;
             call (MakeAudioData sample_rate) ;;
             text <- recognize_google ;;
             vret (Some (lower text)))
            (fun e =>
               print ("Audio error (sounddevice): " ++ str_exn e) ;;
               vret None)
        else vret None
    | None => vret None
    end.




End VoiceEngine.

(** ** Sample devices *)

Module SampleDevice.
Import JARVIS.

(** Nothing called yet, calls failing as [faults] says, and a recognizer
    that hears "Hello Jarvis". *)
Definition device (faults : nat -> option exn) : VoiceEngine.Device :=
  VoiceEngine.mkDevice [] faults (fun _ => "Hello Jarvis") 0.

Definition working : VoiceEngine.Device := device (fun _ => None).

(** No microphone can be opened. *)
Definition no_microphone : VoiceEngine.Device :=
  device (fun n => match n with
                   | 0 => Some (OSError "No Default Input Device Available")
                   | _ => None
                   end).

(** The speech engine's loop is already running: [runAndWait] fails on the
    first attempt and [say] on the second. *)
Definition busy_engine : VoiceEngine.Device :=
  device (fun n => match n with
                   | 1 => Some (OSError "run loop already started")
                   | 3 => Some (OSError "engine stopped")
                   | _ => None
                   end).

Definition with_sounddevice : VoiceEngine.Self :=
  {| VoiceEngine.sr_available := true;
     VoiceEngine.audio_backend := Some "sounddevice" |}.

Definition with_pyaudio : VoiceEngine.Self :=
  {| VoiceEngine.sr_available := true;
     VoiceEngine.audio_backend := Some "pyaudio" |}.

End SampleDevice.

(** ** main.py *)

Module Main.
Import JARVIS.


End Main.

(** ** Notions used in the statements *)

(** No white space in front. *)
Definition starts_clean (s : string) : Prop :=
  match s with
  | EmptyString => True
  | String c _ => PyStr.isspace c = false
  end.

(** What answering a request does to the world. *)
Definition after_request (user_input : string) (w : JARVIS.World) : JARVIS.World :=
  match NLPEngine.intent (NLPEngine.analyze user_input) with
  | NLPEngine.SYSTEM_INFO =>
      JARVIS.count_probe
        (JARVIS.record JARVIS.GetSystemInfo
           (JARVIS.record (JARVIS.Analyze user_input) w))
  | _ => JARVIS.record (JARVIS.Analyze user_input) w
  end.

(** The world once [stop] has run in it. *)
Definition halted (w : JARVIS.World) : JARVIS.World :=
  JARVIS.record (JARVIS.Log JARVIS.INFO (JARVIS.ai_name w ++ " stopped"))
    (JARVIS.record (JARVIS.Speak "Powering down. Goodbye sir.")
       (JARVIS.set_running false w)).

(** The four statements both loops run on a request, [msg] being what is
    logged first. *)
Definition turn (msg user_input : string) : JARVIS.M unit :=
  JARVIS.bind (JARVIS.logger_info msg) (fun _ =>
  JARVIS.bind (JARVIS.process_command user_input) (fun response =>
  JARVIS.bind (JARVIS.speak response) (fun _ =>
  JARVIS.save_interaction user_input response))).


(** * Properties *)

(** ** Substring tests *)

Section Substrings.
Import PyStr.

Lemma prefix_iff (kw text : string) :
  prefix kw text = true <-> exists post, text = kw ++ post.
Proof.
  revert text; induction kw as [|c kw IH]; intros text; simpl.
  - split; [intros _; now exists text | intros _; now destruct text].
  - destruct text as [|d text].
    + split; [discriminate | intros [post H]; discriminate].
    + simpl. destruct (ascii_dec c d) as [->|Hcd].
      * rewrite IH. split; intros [post H]; exists post.
        -- now rewrite H.
        -- now inversion H.
      * split; [discriminate | intros [post H]; inversion H; congruence].
Qed.

Lemma contains_nil (kw : string) :
  contains kw "" = prefix kw "".
Proof. unfold contains. apply orb_false_r. Qed.

Lemma contains_cons (kw : string) (d : ascii) (text : string) :
  contains kw (String d text) = prefix kw (String d text) || contains kw text.
Proof. reflexivity. Qed.

Lemma contains_iff (kw text : string) :
  contains kw text = true <-> Substring kw text.
Proof.
  unfold Substring.
  induction text as [|d text IH].
  - rewrite contains_nil, prefix_iff. split.
    + intros [post H]. now exists "", post.
    + intros [[|c pre] [post H]]; [now exists post | discriminate].
  - rewrite contains_cons, orb_true_iff, prefix_iff, IH. split.
    + intros [[post H] | (pre & post & H)].
      * now exists "", post.
      * exists (String d pre), post. simpl. now rewrite H.
    + intros [[|c pre] [post H]].
      * left. now exists post.
      * right. exists pre, post. now inversion H.
Qed.

Lemma contains_false_iff (kw text : string) :
  contains kw text = false <-> ~ Substring kw text.
Proof.
  rewrite <- contains_iff.
  destruct (contains kw text); split; intros H; try reflexivity; try discriminate.
  now elim H.
Qed.

Lemma any_keyword_iff (keywords : list string) (text : string) :
  NLPEngine.any_keyword keywords text = true
  <-> exists kw, In kw keywords /\ Substring kw text.
Proof.
  unfold NLPEngine.any_keyword. rewrite existsb_exists.
  split; intros (kw & Hin & H); exists kw; split; auto; now apply contains_iff.
Qed.

Lemma any_keyword_false_iff (keywords : list string) (text : string) :
  NLPEngine.any_keyword keywords text = false
  <-> forall kw, In kw keywords -> ~ Substring kw text.
Proof.
  split.
  - intros H kw Hin Hsub.
    assert (NLPEngine.any_keyword keywords text = true)
      by (apply any_keyword_iff; now exists kw).
    congruence.
  - intros H. destruct (NLPEngine.any_keyword keywords text) eqn:E; auto.
    apply any_keyword_iff in E. destruct E as (kw & Hin & Hsub).
    now elim (H kw Hin).
Qed.

End Substrings.

(** ** The classifier *)

Section Classifier.
Import PyStr NLPEngine.

(** The scan stops at the first item one of whose keywords occurs. *)
Lemma detect_in_first (before after : list (string * list string))
    (key : string) (keywords : list string) (text : string) :
  (forall key' kws', In (key', kws') before -> any_keyword kws' text = false) ->
  any_keyword keywords text = true ->
  detect_in (before ++ (key, keywords) :: after) text = intent_of_key key.
Proof.
  induction before as [|[k ks] before IH]; intros Hnone Hhit; simpl.
  - now rewrite Hhit.
  - rewrite (Hnone k ks) by now left.
    apply IH; auto. intros k' ks' Hin. apply (Hnone k' ks'). now right.
Qed.

Lemma detect_in_none (items : list (string * list string)) (text : string) :
  (forall key kws, In (key, kws) items -> any_keyword kws text = false) ->
  detect_in items text = UNKNOWN.
Proof.
  induction items as [|[k ks] items IH]; intros Hnone; simpl; auto.
  rewrite (Hnone k ks) by now left.
  apply IH. intros k' ks' Hin. apply (Hnone k' ks'). now right.
Qed.

Lemma analyze_eq (text0 : string) :
  analyze text0 =
  {| text := strip (lower text0);
     intent := _detect_intent (strip (lower text0));
     entities := [];
     confidence :=
       _calculate_confidence (strip (lower text0))
         (_detect_intent (strip (lower text0))) |}.
Proof. reflexivity. Qed.

(** C1.  "what is my system status" is a SYSTEM_INFO request and not a
    QUERY.  The categories are tried in the order greeting, system_info,
    file_operation, control, query, and the first one that has a keyword
    occurring in the lower-cased, trimmed text is the answer, whatever the
    later ones contain. *)
Theorem classify_first_category_wins :
  intent (analyze "what is my system status") = SYSTEM_INFO
  /\ intent (analyze "what is my system status") <> QUERY
  /\ map (fun item => intent_of_key (fst item)) commands
     = [GREETING; SYSTEM_INFO; FILE_OPERATION; CONTROL; QUERY]
  /\ forall text0 before key keywords after,
       commands = (before ++ (key, keywords) :: after)%list ->
       (exists kw, In kw keywords /\ Substring kw (strip (lower text0))) ->
       (forall key' kws' kw, In (key', kws') before -> In kw kws' ->
          ~ Substring kw (strip (lower text0))) ->
       intent (analyze text0) = intent_of_key key.
Proof.
  split; [reflexivity|]. split; [discriminate|]. split; [reflexivity|].
  intros text0 before key keywords after Hsplit Hhit Hnone.
  rewrite analyze_eq. simpl intent. unfold _detect_intent. rewrite Hsplit.
  apply detect_in_first.
  - intros key' kws' Hin. apply any_keyword_false_iff.
    intros kw Hkw. now apply (Hnone key' kws' kw).
  - now apply any_keyword_iff.
Qed.

(** The witness: "Show me what you read" has keywords of system_info
    ("show me"), file_operation ("read") and query ("what"), and none of
    greeting; it is a SYSTEM_INFO request. *)
Lemma classify_first_category_wins_witness :
  intent (analyze "Show me what you read") = SYSTEM_INFO.
Proof.
  destruct classify_first_category_wins as (_ & _ & _ & H).
  apply (H "Show me what you read"
           [("greeting", ["hello"; "hi"; "hey jarvis"; "good morning"; "good evening"])]
           "system_info"
           ["what is my"; "tell me"; "show me"; "get"; "system"]
           [("file_operation", ["open"; "read"; "write"; "delete"; "file"]);
            ("control", ["shutdown"; "restart"; "sleep"; "lock"]);
            ("query", ["how"; "what"; "why"; "when"; "where"])]).
  - reflexivity.
  - exists "show me". split; [simpl; tauto|].
    exists "", " what you read". reflexivity.
  - intros key' kws' kw [Hitem|[]] Hkw. inversion Hitem; subst.
    apply contains_false_iff.
    simpl in Hkw. repeat destruct Hkw as [<-|Hkw]; try reflexivity.
    contradiction.
Defined.

Lemma commands_keys_NoDup : NoDup (map fst commands).
Proof.
  simpl. repeat constructor; simpl; intuition discriminate.
Qed.

Lemma commands_keys_known (key : string) (keywords : list string) :
  In (key, keywords) commands -> intent_of_key key <> UNKNOWN.
Proof.
  simpl. intros H.
  repeat (destruct H as [H|H]; [inversion H; subst; discriminate|]).
  contradiction.
Qed.

(** The items in front of an item of [commands] have other keys. *)
Lemma commands_before_other (before after : list (string * list string))
    (key : string) (keywords : list string) :
  commands = (before ++ (key, keywords) :: after)%list ->
  forall key' kws', In (key', kws') before -> key' <> key.
Proof.
  intros Hsplit key' kws' Hin ->.
  pose proof commands_keys_NoDup as Hnd.
  rewrite Hsplit, map_app in Hnd. simpl in Hnd.
  apply NoDup_remove_2 in Hnd. apply Hnd.
  apply in_or_app. left. now apply (in_map fst _ (key, kws')).
Qed.

Lemma confidence_of_known (text : string) (c : CommandType) :
  c <> UNKNOWN -> _calculate_confidence text c = 0.85%pyfloat.
Proof. destruct c; intros H; try reflexivity. now elim H. Qed.

(** C2.  When the lower-cased, trimmed text contains a keyword of one
    category and no keyword of any other category, [analyze] answers with
    that category (one of the five, never UNKNOWN) and confidence 0.85. *)
Theorem classify_single_category (text0 key : string) (keywords : list string) :
  In (key, keywords) commands ->
  (exists kw, In kw keywords /\ Substring kw (strip (lower text0))) ->
  (forall key' kws' kw,
      In (key', kws') commands -> key' <> key -> In kw kws' ->
      ~ Substring kw (strip (lower text0))) ->
  intent_of_key key <> UNKNOWN
  /\ analyze text0 =
     {| text := strip (lower text0);
        intent := intent_of_key key;
        entities := [];
        confidence := 0.85%pyfloat |}.
Proof.
  intros Hin Hhit Hothers.
  pose proof (commands_keys_known key keywords Hin) as Hknown.
  split; [exact Hknown|].
  destruct (in_split _ _ Hin) as (before & after & Hsplit).
  assert (Hdet : _detect_intent (strip (lower text0)) = intent_of_key key).
  { unfold _detect_intent. rewrite Hsplit. apply detect_in_first.
    - intros key' kws' Hb. apply any_keyword_false_iff. intros kw Hkw.
      apply (Hothers key' kws' kw); auto.
      + rewrite Hsplit. apply in_or_app. now left.
      + now apply (commands_before_other before after key keywords Hsplit key' kws').
    - now apply any_keyword_iff. }
  rewrite analyze_eq, Hdet. f_equal. now apply confidence_of_known.
Qed.

(** The witness: "  LOCK the door " has the control keyword "lock" and no
    keyword of another category. *)
Lemma classify_single_category_witness :
  analyze "  LOCK the door " =
  {| text := "lock the door"; intent := CONTROL; entities := [];
     confidence := 0.85%pyfloat |}.
Proof.
  apply (classify_single_category "  LOCK the door " "control"
           ["shutdown"; "restart"; "sleep"; "lock"]).
  - simpl. tauto.
  - exists "lock". split; [simpl; tauto|].
    exists "", " the door". reflexivity.
  - intros key' kws' kw Hin Hneq Hkw. apply contains_false_iff.
    simpl in Hin.
    repeat (destruct Hin as [Hin|Hin];
            [inversion Hin; subst; clear Hin;
             try (now elim Hneq);
             simpl in Hkw; repeat destruct Hkw as [<-|Hkw];
             try reflexivity; contradiction|]).
    contradiction.
Defined.

(** C3.  [analyze] is defined on every text and its confidence is one of
    the two constants; on the empty string it answers UNKNOWN; and
    whenever no keyword of any category occurs in the lower-cased, trimmed
    text it answers UNKNOWN with confidence 0.3. *)
Theorem classify_total_unknown :
  (forall text0, exists a,
      analyze text0 = a
      /\ (intent a = UNKNOWN -> confidence a = 0.3%pyfloat)
      /\ (intent a <> UNKNOWN -> confidence a = 0.85%pyfloat))
  /\ analyze "" =
     {| text := ""; intent := UNKNOWN; entities := [];
        confidence := 0.3%pyfloat |}
  /\ forall text0,
       (forall key kws kw, In (key, kws) commands -> In kw kws ->
          ~ Substring kw (strip (lower text0))) ->
       analyze text0 =
       {| text := strip (lower text0); intent := UNKNOWN; entities := [];
          confidence := 0.3%pyfloat |}.
Proof.
  split; [|split].
  - intros text0. exists (analyze text0). split; [reflexivity|].
    rewrite analyze_eq. simpl. split.
    + intros ->. reflexivity.
    + apply confidence_of_known.
  - reflexivity.
  - intros text0 Hnone.
    assert (Hdet : _detect_intent (strip (lower text0)) = UNKNOWN).
    { apply detect_in_none. intros key kws Hin.
      apply any_keyword_false_iff. intros kw Hkw.
      now apply (Hnone key kws kw). }
    rewrite analyze_eq, Hdet. reflexivity.
Qed.

(** The witness: "Thank you" holds no keyword. *)
Lemma classify_total_unknown_witness :
  analyze "Thank you" =
  {| text := "thank you"; intent := UNKNOWN; entities := [];
     confidence := 0.3%pyfloat |}.
Proof.
  destruct classify_total_unknown as (_ & _ & H).
  apply (H "Thank you").
  intros key kws kw Hin Hkw. apply contains_false_iff.
  simpl in Hin.
  repeat (destruct Hin as [Hin|Hin];
          [inversion Hin; subst; clear Hin;
           simpl in Hkw; repeat destruct Hkw as [<-|Hkw];
           try reflexivity; contradiction|]).
  contradiction.
Defined.

(** C10.  A text whose lower-cased, trimmed form contains "hi" anywhere is
    a GREETING with confidence 0.85, whatever else it contains: "open this
    file" holds the file_operation keywords "open" and "file" and is a
    GREETING all the same, through the "hi" of "this"; so is "restart the
    machine", through "machine". *)
Theorem hi_inside_a_word_is_greeting :
  (forall text0,
      Substring "hi" (strip (lower text0)) ->
      intent (analyze text0) = GREETING
      /\ confidence (analyze text0) = 0.85%pyfloat)
  /\ Substring "open" "open this file"
  /\ Substring "file" "open this file"
  /\ intent (analyze "open this file") = GREETING
  /\ intent (analyze "open this file") <> FILE_OPERATION
  /\ intent (analyze "restart the machine") = GREETING.
Proof.
  split.
  - intros text0 Hhi.
    assert (Hdet : _detect_intent (strip (lower text0)) = GREETING).
    { unfold _detect_intent, commands.
      apply (detect_in_first [] _ "greeting").
      - intros key' kws' [].
      - apply any_keyword_iff. exists "hi". split; [simpl; tauto | exact Hhi]. }
    rewrite analyze_eq, Hdet. split; reflexivity.
  - repeat split; try reflexivity; try discriminate.
    + exists "", " this file". reflexivity.
    + exists "open this ", "". reflexivity.
Qed.

(** The witness: "Which one?" (the "hi" of "which"). *)
Lemma hi_inside_a_word_is_greeting_witness :
  intent (analyze "Which one?") = GREETING
  /\ confidence (analyze "Which one?") = 0.85%pyfloat.
Proof.
  destruct hi_inside_a_word_is_greeting as (H & _).
  apply (H "Which one?").
  exists "w", "ch one?". reflexivity.
Defined.

End Classifier.

(** ** The dispatcher *)

Section Dispatcher.
Import PyStr NLPEngine JARVIS.
Local Open Scope py_scope.

Lemma process_command_eq (user_input : string) (w : World) :
  process_command user_input w =
  match intent (analyze user_input) with
  | GREETING => handle_greeting
  | SYSTEM_INFO => handle_system_info user_input
  | FILE_OPERATION => handle_file_operation user_input
  | CONTROL => handle_control user_input
  | QUERY => handle_query user_input
  | UNKNOWN => ret "I did not understand that. Could you please repeat?"
  end (record (Analyze user_input) w).
Proof. reflexivity. Qed.

Lemma process_command_system_info (user_input : string) (w : World) :
  intent (analyze user_input) = SYSTEM_INFO ->
  process_command user_input w
  = handle_system_info user_input (record (Analyze user_input) w).
Proof. intros H. rewrite process_command_eq, H. reflexivity. Qed.

Lemma process_command_control (user_input : string) (w : World) :
  intent (analyze user_input) = CONTROL ->
  process_command user_input w
  = handle_control user_input (record (Analyze user_input) w).
Proof. intros H. rewrite process_command_eq, H. reflexivity. Qed.

Lemma handle_system_info_eq (user_input : string) (w : World) :
  fst (handle_system_info user_input w) =
  Returned
    (let system_info := probe w (probe_calls w) in
     if contains "cpu" user_input || contains "processor" user_input then
       "Your CPU usage is at " ++ str_float (cpu_percent system_info) ++ " percent"
     else if contains "memory" user_input || contains "ram" user_input then
       "Memory available: " ++ available (memory system_info)
     else if contains "disk" user_input then
       "Disk space free: " ++ free (disk system_info)
     else
       "System is running on " ++ platform system_info ++ " with "
       ++ str_int (cpu_count system_info) ++ " processors").
Proof.
  unfold handle_system_info, bind, get_system_info. simpl.
  destruct (contains "cpu" user_input || contains "processor" user_input);
    [reflexivity|].
  destruct (contains "memory" user_input || contains "ram" user_input);
    [reflexivity|].
  destruct (contains "disk" user_input); reflexivity.
Qed.

Lemma either_contains (a b text : string) :
  Substring a text \/ Substring b text ->
  contains a text || contains b text = true.
Proof.
  intros [H|H]; apply contains_iff in H; rewrite H; auto using orb_true_r.
Qed.

Lemma neither_contains (a b text : string) :
  ~ Substring a text -> ~ Substring b text ->
  contains a text || contains b text = false.
Proof.
  intros Ha Hb. apply contains_false_iff in Ha, Hb. now rewrite Ha, Hb.
Qed.

(** C4.  For a SYSTEM_INFO request the answer is chosen by what the text
    as typed contains, in this order: "cpu" or "processor", then "memory"
    or "ram", then "disk", else the platform line.  The test is on the
    text as typed, not on its lower-cased form: "tell me about cpu" with a
    CPU load of 42.0 is answered "Your CPU usage is at 42.0 percent",
    while "Tell me about the CPU" gets the platform line. *)
Theorem system_info_answer_by_priority :
  (forall user_input w,
      intent (analyze user_input) = SYSTEM_INFO ->
      let system_info := probe w (probe_calls w) in
      let answer := fst (process_command user_input w) in
      (Substring "cpu" user_input \/ Substring "processor" user_input ->
       answer = Returned ("Your CPU usage is at "
                          ++ str_float (cpu_percent system_info) ++ " percent"))
      /\ (~ Substring "cpu" user_input -> ~ Substring "processor" user_input ->
          Substring "memory" user_input \/ Substring "ram" user_input ->
          answer = Returned ("Memory available: " ++ available (memory system_info)))
      /\ (~ Substring "cpu" user_input -> ~ Substring "processor" user_input ->
          ~ Substring "memory" user_input -> ~ Substring "ram" user_input ->
          Substring "disk" user_input ->
          answer = Returned ("Disk space free: " ++ free (disk system_info)))
      /\ (~ Substring "cpu" user_input -> ~ Substring "processor" user_input ->
          ~ Substring "memory" user_input -> ~ Substring "ram" user_input ->
          ~ Substring "disk" user_input ->
          answer = Returned ("System is running on " ++ platform system_info
                             ++ " with " ++ str_int (cpu_count system_info)
                             ++ " processors")))
  /\ (forall w,
         cpu_percent (probe w (probe_calls w)) = 42.0%pyfloat ->
         intent (analyze "tell me about cpu") = SYSTEM_INFO
         /\ fst (process_command "tell me about cpu" w)
            = Returned "Your CPU usage is at 42.0 percent")
  /\ (forall w,
         intent (analyze "Tell me about the CPU") = SYSTEM_INFO
         /\ fst (process_command "Tell me about the CPU" w)
            = Returned ("System is running on "
                        ++ platform (probe w (probe_calls w)) ++ " with "
                        ++ str_int (cpu_count (probe w (probe_calls w)))
                        ++ " processors")).
Proof.
  split; [|split].
  - intros user_input w Hintent system_info answer.
    subst system_info answer.
    rewrite (process_command_system_info _ _ Hintent), handle_system_info_eq.
    change (probe_calls (record (Analyze user_input) w)) with (probe_calls w).
    change (probe (record (Analyze user_input) w)) with (probe w).
    cbv zeta.
    repeat split.
    + intros H. now rewrite (either_contains _ _ _ H).
    + intros H1 H2 H. now rewrite (neither_contains _ _ _ H1 H2), (either_contains _ _ _ H).
    + intros H1 H2 H3 H4 H.
      rewrite (neither_contains _ _ _ H1 H2), (neither_contains _ _ _ H3 H4).
      apply contains_iff in H. now rewrite H.
    + intros H1 H2 H3 H4 H.
      rewrite (neither_contains _ _ _ H1 H2), (neither_contains _ _ _ H3 H4).
      apply contains_false_iff in H. now rewrite H.
  - intros w Hcpu. split; [reflexivity|].
    rewrite (process_command_system_info "tell me about cpu" w eq_refl).
    rewrite handle_system_info_eq.
    change (probe_calls (record (Analyze "tell me about cpu") w)) with (probe_calls w).
    change (probe (record (Analyze "tell me about cpu") w)) with (probe w).
    cbv zeta. rewrite Hcpu. reflexivity.
  - intros w. split; reflexivity.
Qed.

(** The witness: "show me the RAM and the disk" names the memory in
    capitals only, so the disk line is the answer. *)
Lemma system_info_answer_by_priority_witness :
  fst (process_command "show me the RAM and the disk" Sample.healthy)
  = Returned "Disk space free: 120.5 GB"
  /\ fst (process_command "tell me about cpu" Sample.healthy)
     = Returned "Your CPU usage is at 42.0 percent".
Proof.
  destruct system_info_answer_by_priority as (Hgen & Hcpu & _).
  split.
  - destruct (Hgen "show me the RAM and the disk" Sample.healthy eq_refl)
      as (_ & _ & Hdisk & _).
    apply Hdisk; try (apply contains_false_iff; reflexivity).
    exists "show me the RAM and the ", "". reflexivity.
  - apply (Hcpu Sample.healthy). reflexivity.
Defined.

(** C5.  For a CONTROL request the answer is "Shutdown command received"
    when the text as typed contains "shutdown", else "Restart command
    received" when it contains "restart", else "Control command not
    recognized".  The handler leaves the world as it is: answering is all
    it does, and the request as a whole adds nothing but its
    classification to what the assistant has done. *)
Theorem control_answer_only :
  (forall user_input w,
      intent (analyze user_input) = CONTROL ->
      let answer := fst (process_command user_input w) in
      (Substring "shutdown" user_input ->
       answer = Returned "Shutdown command received")
      /\ (~ Substring "shutdown" user_input -> Substring "restart" user_input ->
          answer = Returned "Restart command received")
      /\ (~ Substring "shutdown" user_input -> ~ Substring "restart" user_input ->
          answer = Returned "Control command not recognized")
      /\ snd (process_command user_input w) = record (Analyze user_input) w)
  /\ (forall user_input w, snd (handle_control user_input w) = w)
  /\ (forall w,
         intent (analyze "shutdown") = CONTROL
         /\ process_command "shutdown" w
            = (Returned "Shutdown command received", record (Analyze "shutdown") w)).
Proof.
  split; [|split].
  - intros user_input w Hintent answer. subst answer.
    rewrite (process_command_control _ _ Hintent). unfold handle_control.
    repeat split.
    + intros H. apply contains_iff in H. now rewrite H.
    + intros H1 H. apply contains_false_iff in H1. apply contains_iff in H.
      now rewrite H1, H.
    + intros H1 H2. apply contains_false_iff in H1, H2. now rewrite H1, H2.
    + destruct (contains "shutdown" user_input); [reflexivity|].
      destruct (contains "restart" user_input); reflexivity.
  - intros user_input w. unfold handle_control.
    destruct (contains "shutdown" user_input); [reflexivity|].
    destruct (contains "restart" user_input); reflexivity.
  - intros w. split; reflexivity.
Qed.

(** The witness: "SHUTDOWN now" is a CONTROL request, but as typed it
    contains neither "shutdown" nor "restart". *)
Lemma control_answer_only_witness :
  fst (process_command "SHUTDOWN now" Sample.healthy)
  = Returned "Control command not recognized".
Proof.
  destruct control_answer_only as (Hgen & _).
  destruct (Hgen "SHUTDOWN now" Sample.healthy eq_refl) as (_ & _ & Hnone & _).
  apply Hnone; apply contains_false_iff; reflexivity.
Defined.

End Dispatcher.

(** ** The text-mode loop *)

Section TextMode.
Import PyStr NLPEngine JARVIS.
Local Open Scope py_scope.

Lemma stop_eq (w : World) :
  stop w =
  (Returned tt,
   record (Log INFO (ai_name w ++ " stopped"))
     (record (Speak "Powering down. Goodbye sir.") (set_running false w))).
Proof. reflexivity. Qed.

(** A stopped assistant reads nothing and does nothing. *)
Lemma text_loop_stopped (console : list console_in) (w : World) :
  running w = false -> text_loop console w = (Returned console, w).
Proof. intros H. destruct console; simpl; now rewrite H. Qed.

(** One pass through the loop body on a typed line. *)
Lemma text_loop_line (line : string) (rest : list console_in) (w : World) :
  running w = true ->
  text_loop (Line line :: rest) w =
  (if falsy line then text_loop rest
   else if mem (lower (strip line)) exit_words then stop ;; ret rest
   else text_turn line ;; text_loop rest) (record (Input "You: ") w).
Proof. intros H. simpl. rewrite H. reflexivity. Qed.

Lemma mem_iff (x : string) (l : list string) : mem x l = true <-> In x l.
Proof.
  unfold mem. rewrite existsb_exists. split.
  - intros (y & Hin & Heq). apply String.eqb_eq in Heq. now subst.
  - intros Hin. exists x. split; auto. apply String.eqb_refl.
Qed.

Lemma exit_word_not_empty (line : string) :
  In (lower (strip line)) exit_words -> falsy line = false.
Proof.
  destruct line; [|reflexivity].
  simpl. intuition discriminate.
Qed.

(** C6.  When the line read, trimmed and lower-cased, is "exit", "quit",
    "shutdown" or "power down", the loop ends with the assistant stopped:
    what it does for that line is to prompt, say the farewell and note the
    stop; the line is not analyzed, nothing touches the log file, the rest
    of the console stays unread, and entering the loop again in the stopped
    state reads and does nothing. *)
Theorem exit_word_stops_text_loop
    (line : string) (rest : list console_in) (w : World) :
  running w = true ->
  In (lower (strip line)) exit_words ->
  let w' := snd (text_loop (Line line :: rest) w) in
  fst (text_loop (Line line :: rest) w) = Returned rest
  /\ running w' = false
  /\ trace w' = (trace w ++ [Input "You: ";
                             Speak "Powering down. Goodbye sir.";
                             Log INFO (ai_name w ++ " stopped")])%list
  /\ log_file w' = log_file w
  /\ io_ops w' = io_ops w
  /\ forall more, text_loop more w' = (Returned more, w').
Proof.
  intros Hrun Hexit w'. subst w'.
  rewrite (text_loop_line line rest w Hrun).
  rewrite (exit_word_not_empty line Hexit).
  apply mem_iff in Hexit. rewrite Hexit.
  unfold bind. rewrite stop_eq. simpl.
  repeat split.
  - now rewrite <- !app_assoc.
  - intros more. now apply text_loop_stopped.
Qed.

(** The witness: "  Power Down " typed after start, with more lines
    waiting. *)
Lemma exit_word_stops_text_loop_witness :
  let w' := snd (text_loop [Line "  Power Down "; Line "hello"] Sample.healthy) in
  fst (text_loop [Line "  Power Down "; Line "hello"] Sample.healthy)
  = Returned [Line "hello"]
  /\ running w' = false
  /\ trace w' = (trace Sample.healthy
                 ++ [Input "You: ";
                     Speak "Powering down. Goodbye sir.";
                     Log INFO (ai_name Sample.healthy ++ " stopped")])%list
  /\ log_file w' = log_file Sample.healthy
  /\ io_ops w' = io_ops Sample.healthy
  /\ forall more, text_loop more w' = (Returned more, w').
Proof.
  apply (exit_word_stops_text_loop "  Power Down " [Line "hello"] Sample.healthy).
  - reflexivity.
  - simpl. tauto.
Defined.

Lemma isspace_not_upper (c : ascii) : isspace c = true -> lower_char c = c.
Proof.
  destruct c as [[] [] [] [] [] [] [] []]; intros H; try reflexivity; discriminate.
Qed.

Lemma lower_only_spaces (s : string) : only_spaces s = true -> lower s = s.
Proof.
  induction s as [|c s IH]; simpl; auto.
  intros H. apply andb_true_iff in H. destruct H as [Hc Hs].
  now rewrite (isspace_not_upper c Hc), IH.
Qed.

Lemma strip_only_spaces (s : string) : only_spaces s = true -> strip s = "".
Proof.
  unfold strip. induction s as [|c s IH]; simpl; auto.
  intros H. apply andb_true_iff in H. destruct H as [Hc Hs].
  rewrite Hc. now apply IH.
Qed.

Lemma analyze_only_spaces (s : string) :
  only_spaces s = true -> intent (analyze s) = UNKNOWN.
Proof.
  intros H. rewrite analyze_eq. simpl intent.
  now rewrite (lower_only_spaces s H), (strip_only_spaces s H).
Qed.

(** C7.  An empty line is skipped: the prompt is all that happens for it
    (no analysis, no answer, no log entry) and the loop goes on with what
    follows.  Empty means without any character: a line of white space only
    is not skipped; it is logged, analyzed (as UNKNOWN), answered with the
    request to repeat, and saved. *)
Theorem empty_line_is_skipped :
  (forall rest w,
      running w = true ->
      text_loop (Line "" :: rest) w = text_loop rest (record (Input "You: ") w)
      /\ trace (record (Input "You: ") w) = (trace w ++ [Input "You: "])%list
      /\ log_file (record (Input "You: ") w) = log_file w
      /\ running (record (Input "You: ") w) = true)
  /\ (forall line rest w,
         running w = true ->
         falsy line = false ->
         only_spaces line = true ->
         text_loop (Line line :: rest) w
         = (save_interaction line "I did not understand that. Could you please repeat?" ;;
            text_loop rest)
             (record (Speak "I did not understand that. Could you please repeat?")
                (record (Analyze line)
                   (record (Log INFO ("User (text): " ++ line))
                      (record (Input "You: ") w))))).
Proof.
  split.
  - intros rest w Hrun. rewrite (text_loop_line "" rest w Hrun).
    repeat split. exact Hrun.
  - intros line rest w Hrun Hne Hsp.
    rewrite (text_loop_line line rest w Hrun), Hne.
    rewrite (strip_only_spaces line Hsp).
    change (mem (lower "") exit_words) with false. cbv iota.
    unfold text_turn, bind at 1 2 3. unfold logger_info at 1. unfold emit, act.
    rewrite process_command_eq, (analyze_only_spaces line Hsp).
    reflexivity.
Qed.

(** The witness: an empty line, and a line of three blanks. *)
Lemma empty_line_is_skipped_witness :
  (text_loop [Line ""; Line "hello"] Sample.healthy
   = text_loop [Line "hello"] (record (Input "You: ") Sample.healthy)
   /\ trace (record (Input "You: ") Sample.healthy)
      = (trace Sample.healthy ++ [Input "You: "])%list
   /\ log_file (record (Input "You: ") Sample.healthy) = log_file Sample.healthy
   /\ running (record (Input "You: ") Sample.healthy) = true)
  /\ text_loop [Line "   "] Sample.healthy
     = (save_interaction "   " "I did not understand that. Could you please repeat?" ;;
        text_loop [])
         (record (Speak "I did not understand that. Could you please repeat?")
            (record (Analyze "   ")
               (record (Log INFO ("User (text): " ++ "   "))
                  (record (Input "You: ") Sample.healthy)))).
Proof.
  destruct empty_line_is_skipped as (Hempty & Hblank).
  split.
  - apply (Hempty [Line "hello"] Sample.healthy). reflexivity.
  - apply (Hblank "   " [] Sample.healthy); reflexivity.
Defined.

End TextMode.

(** ** The interaction log *)

Section InteractionLog.
Import PyStr NLPEngine JARVIS.
Local Open Scope py_scope.

Lemma entries_from_turns clock k turns :
  map (fun i => (user_input i, response i)) (entries_from clock k turns) = turns.
Proof.
  revert k; induction turns as [|[u r] turns IH]; intros k; simpl; auto.
  now rewrite IH.
Qed.

Ltac run_file_operations Hio Hfile :=
  cbv [save_interaction try_except save_body bind now_isoformat
       load_conversations log_file_exists open_read json_load open_write
       json_dump file_operation emit act ret];
  repeat (simpl; rewrite ?Hio, ?Hfile).

(** A save during which no file operation fails. *)
Lemma save_interaction_ok (u r : string) (w : World) (old : list Interaction) :
  (forall n, io_fault w n = None) ->
  log_holds w old ->
  exists w',
    save_interaction u r w = (Returned tt, w')
    /\ log_file w' =
       Stored (old ++ [{| timestamp := clock w (clock_reads w);
                          user_input := u; response := r |}])
    /\ io_fault w' = io_fault w
    /\ clock w' = clock w
    /\ clock_reads w' = S (clock_reads w).
Proof.
  intros Hok [Hfile | [Hfile ->]];
    (eexists; split; [run_file_operations Hok Hfile; reflexivity|]);
    simpl; repeat split.
Qed.

Lemma load_conversations_ok (w : World) (entries : list Interaction) :
  (forall n, io_fault w n = None) ->
  log_holds w entries ->
  fst (load_conversations w) = Returned entries.
Proof.
  intros Hok [Hfile | [Hfile ->]];
    cbv [load_conversations log_file_exists open_read json_load bind
         file_operation emit act ret];
    repeat (simpl; rewrite ?Hok, ?Hfile); reflexivity.
Qed.

Lemma save_all_ok (turns : list (string * string)) :
  forall (w : World) (old : list Interaction),
    (forall n, io_fault w n = None) ->
    log_holds w old ->
    exists w',
      save_all turns w = (Returned tt, w')
      /\ log_holds w' (old ++ entries_from (clock w) (clock_reads w) turns)%list
      /\ io_fault w' = io_fault w.
Proof.
  induction turns as [|[u r] turns IH]; intros w old Hok Hold.
  - exists w. simpl. rewrite app_nil_r. auto.
  - destruct (save_interaction_ok u r w old Hok Hold)
      as (w1 & Hsave & Hfile1 & Hio1 & Hclock1 & Hreads1).
    assert (Hok1 : forall n, io_fault w1 n = None)
      by (intros n; rewrite Hio1; apply Hok).
    destruct (IH w1 _ Hok1 (or_introl Hfile1)) as (w' & Hall & Hfile' & Hio').
    exists w'. simpl. unfold bind. rewrite Hsave, Hall.
    rewrite Hclock1, Hreads1, <- app_assoc in Hfile'.
    repeat split; auto. congruence.
Qed.

(** C8.  Saving the turns one after the other, with no file operation
    failing and a log that is missing or readable, and then reading the
    log, gives what the log held before followed by one entry per turn, in
    the order of the saves, each with the user input and the response it
    was saved with (and the time of its save). *)
Theorem log_round_trip
    (turns : list (string * string)) (old : list Interaction) (w : World) :
  (forall n, io_fault w n = None) ->
  log_holds w old ->
  exists w' added,
    save_all turns w = (Returned tt, w')
    /\ fst (load_conversations w') = Returned (old ++ added)%list
    /\ added = entries_from (clock w) (clock_reads w) turns
    /\ map (fun i => (user_input i, response i)) added = turns
    /\ length added = length turns.
Proof.
  intros Hok Hold.
  destruct (save_all_ok turns w old Hok Hold) as (w' & Hall & Hfile' & Hio').
  exists w', (entries_from (clock w) (clock_reads w) turns).
  split; [exact Hall|]. split; [|split; [reflexivity|split]].
  - apply load_conversations_ok; auto. intros n. rewrite Hio'. apply Hok.
  - apply entries_from_turns.
  - rewrite <- (length_map (fun i => (user_input i, response i))).
    now rewrite entries_from_turns.
Qed.

(** The witness: three turns saved from a fresh start, then read back. *)
Lemma log_round_trip_witness :
  exists w' added,
    save_all [("hello", "Good to see you. How can I assist you today?");
              ("lock", "Control command not recognized");
              ("hello", "Good to see you. How can I assist you today?")]
      Sample.healthy = (Returned tt, w')
    /\ fst (load_conversations w') = Returned ([] ++ added)%list
    /\ added = entries_from (clock Sample.healthy) (clock_reads Sample.healthy)
                 [("hello", "Good to see you. How can I assist you today?");
                  ("lock", "Control command not recognized");
                  ("hello", "Good to see you. How can I assist you today?")]
    /\ map (fun i => (user_input i, response i)) added
       = [("hello", "Good to see you. How can I assist you today?");
          ("lock", "Control command not recognized");
          ("hello", "Good to see you. How can I assist you today?")]
    /\ length added = 3.
Proof.
  apply (log_round_trip
           [("hello", "Good to see you. How can I assist you today?");
            ("lock", "Control command not recognized");
            ("hello", "Good to see you. How can I assist you today?")]
           [] Sample.healthy).
  - reflexivity.
  - right. split; reflexivity.
Defined.

Ltac split_on_faults :=
  repeat match goal with
    | |- context [match io_fault ?w ?n with _ => _ end] =>
        destruct (io_fault w n); simpl
    end.

(** A save whose [try] block raises leaves the file as it was or
    unreadable, and touches nothing else of the assistant's own state. *)
Lemma save_body_raised (u r : string) (w w1 : World) (e : exn) :
  save_body u r w = (Raised e, w1) ->
  (log_file w1 = log_file w \/ log_file w1 = Unreadable)
  /\ running w1 = running w.
Proof.
  cbv [save_body bind now_isoformat load_conversations log_file_exists
       open_read json_load open_write json_dump file_operation emit act ret].
  simpl. destruct (log_file w) eqn:Hfile;
    repeat (progress (simpl; rewrite ?Hfile; split_on_faults));
    intros H; inversion H; subst; simpl; auto.
Qed.

(** Answering a request leaves [running] alone. *)
Lemma process_command_running (user_input : string) (w : World) :
  running (snd (process_command user_input w)) = running w.
Proof.
  rewrite process_command_eq.
  destruct (intent (analyze user_input));
    unfold handle_greeting, handle_system_info, handle_file_operation,
      handle_control, handle_query, bind, get_system_info, ret; simpl;
    repeat match goal with
      | |- context [if ?b then _ else _] => destruct b
      end; reflexivity.
Qed.

(** One pass through the loop body on a line that is processed. *)
Lemma text_loop_turn (line : string) (rest : list console_in) (w : World) :
  running w = true ->
  falsy line = false ->
  mem (lower (strip line)) exit_words = false ->
  text_loop (Line line :: rest) w
  = (text_turn line ;; text_loop rest) (record (Input "You: ") w).
Proof.
  intros Hrun Hne Hexit. rewrite (text_loop_line line rest w Hrun), Hne, Hexit.
  reflexivity.
Qed.

(** C9.  When the [try] block of [save_interaction] raises an [Exception]
    (a failing file operation, an unreadable log), [save_interaction] itself
    returns: the error goes to the logger, the entry is not in the file
    (which is as before, or unreadable), [running] is untouched; and the
    text loop, having answered the line, goes on with the next one. *)
Theorem log_failure_is_recovered :
  (forall user_input response w w1 e,
      save_body user_input response w = (Raised e, w1) ->
      is_Exception e = true ->
      let w2 := record (Log ERROR ("Error saving interaction: " ++ str_exn e)) w1 in
      save_interaction user_input response w = (Returned tt, w2)
      /\ (log_file w2 = log_file w \/ log_file w2 = Unreadable)
      /\ running w2 = running w)
  /\ (forall line rest w answer w0 w1 e,
         running w = true ->
         falsy line = false ->
         mem (lower (strip line)) exit_words = false ->
         (logger_info ("User (text): " ++ line) ;;
          response <- process_command line ;;
          speak response ;;
          ret response) (record (Input "You: ") w) = (Returned answer, w0) ->
         save_body line answer w0 = (Raised e, w1) ->
         is_Exception e = true ->
         let w2 := record (Log ERROR ("Error saving interaction: " ++ str_exn e)) w1 in
         text_loop (Line line :: rest) w = text_loop rest w2
         /\ running w2 = true).
Proof.
  assert (Hsave : forall user_input response w w1 e,
             save_body user_input response w = (Raised e, w1) ->
             is_Exception e = true ->
             save_interaction user_input response w
             = (Returned tt,
                record (Log ERROR ("Error saving interaction: " ++ str_exn e)) w1)).
  { intros user_input response w w1 e Hbody Hexn.
    unfold save_interaction, try_except. rewrite Hbody, Hexn. reflexivity. }
  split.
  - intros user_input response w w1 e Hbody Hexn w2. subst w2.
    split; [now apply Hsave|].
    destruct (save_body_raised _ _ _ _ _ Hbody) as [Hfile Hrun].
    simpl. auto.
  - intros line rest w answer w0 w1 e Hrun Hne Hexit Hturn Hbody Hexn w2.
    subst w2.
    rewrite (text_loop_turn line rest w Hrun Hne Hexit).
    unfold text_turn. unfold bind in Hturn |- *.
    unfold logger_info, speak, emit, act, ret in Hturn |- *.
    pose proof (process_command_running line
                  (record (Log INFO ("User (text): " ++ line))
                     (record (Input "You: ") w))) as Hrunp.
    destruct (process_command line
                (record (Log INFO ("User (text): " ++ line))
                   (record (Input "You: ") w))) as [[reply|e1] wb];
      [|discriminate].
    inversion Hturn; subst. simpl in Hrunp.
    destruct (save_body_raised _ _ _ _ _ Hbody) as [_ Hrun1].
    split; [|simpl in *; congruence].
    now rewrite (Hsave _ _ _ _ _ Hbody Hexn).
Qed.

(** The witness: the disk is full when the first entry is dumped.  The save
    returns with the error logged, the file is left unreadable, and the loop
    reads the next line. *)
Lemma log_failure_is_recovered_witness :
  let reply := "Good to see you. How can I assist you today?" in
  let failure := OSError "No space left on device" in
  let w0 :=
    record (Speak reply)
      (record (Analyze "hello")
         (record (Log INFO "User (text): hello")
            (record (Input "You: ") Sample.disk_full))) in
  let w1 := snd (save_body "hello" reply w0) in
  let w2 := record (Log ERROR ("Error saving interaction: " ++ str_exn failure)) w1 in
  (save_interaction "hello" reply w0 = (Returned tt, w2)
   /\ (log_file w2 = log_file w0 \/ log_file w2 = Unreadable)
   /\ running w2 = running w0)
  /\ (text_loop [Line "hello"; Line "exit"] Sample.disk_full
      = text_loop [Line "exit"] w2
      /\ running w2 = true).
Proof.
  intros reply failure w0 w1 w2.
  destruct log_failure_is_recovered as (Hsave & Hloop).
  split.
  - apply (Hsave "hello" reply w0 w1 failure); reflexivity.
  - apply (Hloop "hello" [Line "exit"] Sample.disk_full reply w0 w1 failure);
      reflexivity.
Defined.

End InteractionLog.

(** * Further properties *)

(** ** Normalization *)

Section Normalization.
Import PyStr NLPEngine.

Lemma lower_char_idem (c : ascii) : lower_char (lower_char c) = lower_char c.
Proof. destruct c as [[] [] [] [] [] [] [] []]; reflexivity. Qed.

Lemma isspace_lower_char (c : ascii) : isspace (lower_char c) = isspace c.
Proof. destruct c as [[] [] [] [] [] [] [] []]; reflexivity. Qed.

Lemma lower_idem (s : string) : lower (lower s) = lower s.
Proof.
  induction s as [|c s IH]; simpl; auto.
  now rewrite lower_char_idem, IH.
Qed.

Lemma lower_lstrip (s : string) : lower (lstrip s) = lstrip (lower s).
Proof.
  induction s as [|c s IH]; simpl; auto.
  rewrite isspace_lower_char. destruct (isspace c); auto.
Qed.

Lemma lower_rstrip (s : string) : lower (rstrip s) = rstrip (lower s).
Proof.
  induction s as [|c s IH]; simpl; auto.
  rewrite <- IH, isspace_lower_char.
  destruct (rstrip s) as [|d r]; simpl; auto.
  destruct (isspace c); auto.
Qed.

Lemma lower_strip (s : string) : lower (strip s) = strip (lower s).
Proof. unfold strip. now rewrite lower_rstrip, lower_lstrip. Qed.

Lemma lstrip_starts_clean (s : string) : starts_clean (lstrip s).
Proof.
  induction s as [|c s IH]; simpl; auto.
  destruct (isspace c) eqn:E; simpl; auto.
Qed.

Lemma lstrip_clean (s : string) : starts_clean s -> lstrip s = s.
Proof. destruct s as [|c s]; simpl; auto. now intros ->. Qed.

Lemma rstrip_starts_clean (s : string) : starts_clean s -> starts_clean (rstrip s).
Proof.
  destruct s as [|c s]; simpl; auto. intros Hc.
  destruct (rstrip s); simpl; auto. now rewrite Hc.
Qed.

Lemma rstrip_idem (s : string) : rstrip (rstrip s) = rstrip s.
Proof.
  induction s as [|c s IH]; simpl; auto.
  destruct (rstrip s) as [|d r] eqn:E.
  - destruct (isspace c) eqn:Hc; simpl; auto. now rewrite Hc.
  - change (rstrip (String c (String d r))) with
      (match rstrip (String d r) with
       | EmptyString => if isspace c then EmptyString else String c EmptyString
       | r' => String c r'
       end).
    now rewrite IH.
Qed.

Lemma strip_idem (s : string) : strip (strip s) = strip s.
Proof.
  unfold strip.
  rewrite (lstrip_clean (rstrip (lstrip s))).
  - apply rstrip_idem.
  - apply rstrip_starts_clean, lstrip_starts_clean.
Qed.

(** The normal form of a text is its own normal form. *)
Lemma normal_form_idem (s : string) :
  strip (lower (strip (lower s))) = strip (lower s).
Proof. now rewrite (lower_strip (lower s)), lower_idem, strip_idem. Qed.

Lemma analyze_of_normal_form (s t : string) :
  strip (lower s) = strip (lower t) -> analyze s = analyze t.
Proof. intros H. now rewrite !analyze_eq, H. Qed.

(** X1.  The analysis does not see case or surrounding white space: the
    lower-cased text, the trimmed text and the normalized text stored in
    the result are all analyzed exactly as the text itself. *)
Theorem analyze_ignores_case_and_margins (t : string) :
  analyze (lower t) = analyze t
  /\ analyze (strip t) = analyze t
  /\ analyze (text (analyze t)) = analyze t.
Proof.
  repeat split; apply analyze_of_normal_form.
  - now rewrite lower_idem.
  - now rewrite lower_strip, strip_idem.
  - rewrite analyze_eq. simpl text. apply normal_form_idem.
Qed.

End Normalization.

(** ** The classifier, both ways *)

Section ClassifierConverse.
Import PyStr NLPEngine.

(** How a scan of the table ends: without a hit, or at its first hit. *)
Lemma detect_in_cases (items : list (string * list string)) (text : string) :
  ((forall key kws, In (key, kws) items -> any_keyword kws text = false)
   /\ detect_in items text = UNKNOWN)
  \/ exists before key kws after,
       items = (before ++ (key, kws) :: after)%list
       /\ (forall key' kws', In (key', kws') before -> any_keyword kws' text = false)
       /\ any_keyword kws text = true
       /\ detect_in items text = intent_of_key key.
Proof.
  induction items as [|[k ks] items IH]; simpl.
  - left. split; [intros key kws []|reflexivity].
  - destruct (any_keyword ks text) eqn:Hhit.
    + right. exists [], k, ks, items. repeat split; auto. intros key' kws' [].
    + destruct IH as [[Hnone Hdet] | (before & key & kws & after & -> & Hnone & Hk & Hdet)].
      * left. split; auto. intros key kws [Heq|Hin]; [now inversion Heq; subst|eauto].
      * right. exists ((k, ks) :: before), key, kws, after. repeat split; auto.
        intros key' kws' [Heq|Hin]; [now inversion Heq; subst|eauto].
Qed.

Lemma confidence_unknown_iff (text : string) (c : CommandType) :
  _calculate_confidence text c = 0.3%pyfloat <-> c = UNKNOWN.
Proof. destruct c; simpl; split; intros H; try reflexivity; discriminate. Qed.

(** X2.  The intent is UNKNOWN exactly when no keyword of the table occurs
    in the normalized text, and so is the confidence 0.3: a text with any
    keyword at all is never UNKNOWN. *)
Theorem unknown_iff_no_keyword (t : string) :
  let no_keyword :=
    forall key kws kw, In (key, kws) commands -> In kw kws ->
      ~ Substring kw (strip (lower t)) in
  (intent (analyze t) = UNKNOWN <-> no_keyword)
  /\ (confidence (analyze t) = 0.3%pyfloat <-> no_keyword).
Proof.
  intros no_keyword.
  assert (H : intent (analyze t) = UNKNOWN <-> no_keyword).
  { rewrite analyze_eq. simpl intent. unfold _detect_intent, no_keyword. split.
    - intros Hdet key kws kw Hin Hkw.
      destruct (detect_in_cases commands (strip (lower t)))
        as [[Hnone _] | (before & k & ks & after & Hsplit & _ & _ & Hk)].
      + exact (proj1 (any_keyword_false_iff kws _) (Hnone key kws Hin) kw Hkw).
      + rewrite Hdet in Hk. exfalso.
        apply (commands_keys_known k ks); auto.
        rewrite Hsplit. apply in_or_app. right. now left.
    - intros Hnone. apply detect_in_none. intros key kws Hin.
      apply any_keyword_false_iff. intros kw Hkw. now apply (Hnone key kws kw). }
  split; [exact H|].
  rewrite <- H, analyze_eq. simpl. apply confidence_unknown_iff.
Qed.

(** The witness: "Thank you" and "thanks, what now". *)
Lemma unknown_iff_no_keyword_witness :
  intent (analyze "Thank you") = UNKNOWN
  /\ confidence (analyze "thanks, what now") <> 0.3%pyfloat.
Proof.
  destruct (unknown_iff_no_keyword "Thank you") as ((_ & Hback) & _).
  destruct (unknown_iff_no_keyword "thanks, what now") as (_ & (Hforth & _)).
  split.
  - apply Hback. intros key kws kw Hin Hkw. apply contains_false_iff.
    simpl in Hin.
    repeat (destruct Hin as [Hin|Hin];
            [inversion Hin; subst; clear Hin;
             simpl in Hkw; repeat destruct Hkw as [<-|Hkw];
             try reflexivity; contradiction|]).
    contradiction.
  - intros Hconf.
    apply (Hforth Hconf "query" ["how"; "what"; "why"; "when"; "where"] "what").
    + simpl. tauto.
    + simpl. tauto.
    + exists "thanks, ", " now". reflexivity.
Defined.

(** X3.  Whatever intent other than UNKNOWN the analysis gives, it is the
    category of an item of the table one of whose keywords occurs in the
    normalized text, while no keyword of the items in front of it does. *)
Theorem intent_names_first_match (t : string) (c : CommandType) :
  intent (analyze t) = c ->
  c <> UNKNOWN ->
  exists before key kws after,
    commands = (before ++ (key, kws) :: after)%list
    /\ intent_of_key key = c
    /\ (exists kw, In kw kws /\ Substring kw (strip (lower t)))
    /\ (forall key' kws' kw, In (key', kws') before -> In kw kws' ->
          ~ Substring kw (strip (lower t))).
Proof.
  rewrite analyze_eq. simpl intent. unfold _detect_intent. intros Hc Hknown.
  destruct (detect_in_cases commands (strip (lower t)))
    as [[_ Hdet] | (before & k & ks & after & Hsplit & Hnone & Hhit & Hk)].
  - congruence.
  - exists before, k, ks, after. repeat split; auto.
    + congruence.
    + now apply any_keyword_iff.
    + intros key' kws' kw Hin Hkw.
      exact (proj1 (any_keyword_false_iff kws' _) (Hnone key' kws' Hin) kw Hkw).
Qed.

(** The witness: "when do we read" is a FILE_OPERATION request, through
    "read", although "when" is a query keyword. *)
Lemma intent_names_first_match_witness :
  exists before key kws after,
    commands = (before ++ (key, kws) :: after)%list
    /\ intent_of_key key = FILE_OPERATION
    /\ (exists kw, In kw kws /\ Substring kw (strip (lower "when do we read")))
    /\ (forall key' kws' kw, In (key', kws') before -> In kw kws' ->
          ~ Substring kw (strip (lower "when do we read"))).
Proof.
  apply (intent_names_first_match "when do we read" FILE_OPERATION).
  - reflexivity.
  - discriminate.
Defined.

End ClassifierConverse.

(** ** The dispatcher as a whole *)

Section DispatcherWhole.
Import PyStr NLPEngine JARVIS.
Local Open Scope py_scope.

Lemma process_command_cases (user_input : string) (w : World) :
  exists answer,
    process_command user_input w = (Returned answer, after_request user_input w)
    /\ answer <> "".
Proof.
  rewrite process_command_eq. unfold after_request.
  destruct (intent (analyze user_input));
    unfold handle_greeting, handle_system_info, handle_file_operation,
      handle_control, handle_query, bind, get_system_info, ret; simpl;
    repeat match goal with
      | |- context [if ?b then _ else _] => destruct b
      end;
    eexists; (split; [reflexivity | discriminate]).
Qed.


(** X5.  The answer depends on the text and on the snapshot the probe gives
    at that moment only: two worlds with the same current snapshot get the
    same answer. *)
Theorem same_snapshot_same_answer (user_input : string) (w1 w2 : World) :
  probe w1 (probe_calls w1) = probe w2 (probe_calls w2) ->
  fst (process_command user_input w1) = fst (process_command user_input w2).
Proof.
  intros Hsnap. rewrite !process_command_eq.
  destruct (intent (analyze user_input)); try reflexivity.
  - rewrite !handle_system_info_eq. simpl. now rewrite Hsnap.
  - unfold handle_control.
    destruct (contains "shutdown" user_input); [reflexivity|].
    destruct (contains "restart" user_input); reflexivity.
Qed.

(** The witness: the same request before and after an exchange that was
    saved. *)
Lemma same_snapshot_same_answer_witness :
  fst (process_command "show me the disk" Sample.healthy)
  = fst (process_command "show me the disk"
           (snd (save_interaction "hello" "hi" Sample.healthy))).
Proof.
  apply (same_snapshot_same_answer "show me the disk" Sample.healthy
           (snd (save_interaction "hello" "hi" Sample.healthy))).
  reflexivity.
Defined.

(** X6.  From text to answer: a text with a greeting keyword in its
    normalized form is answered with the greeting, and a text with no
    keyword at all with the request to repeat; neither asks for the system
    information. *)
Theorem greeting_and_unknown_answers (user_input : string) (w : World) :
  (forall kws,
      In ("greeting", kws) commands ->
      (exists kw, In kw kws /\ Substring kw (strip (lower user_input))) ->
      process_command user_input w
      = (Returned "Good to see you. How can I assist you today?",
         record (Analyze user_input) w))
  /\ ((forall key kws kw, In (key, kws) commands -> In kw kws ->
         ~ Substring kw (strip (lower user_input))) ->
      process_command user_input w
      = (Returned "I did not understand that. Could you please repeat?",
         record (Analyze user_input) w)).
Proof.
  split.
  - intros kws Hin Hhit.
    assert (Hdet : intent (analyze user_input) = GREETING).
    { rewrite analyze_eq. simpl intent. unfold _detect_intent.
      simpl in Hin.
      destruct Hin as [Hin|Hin];
        [|repeat (destruct Hin as [Hin|Hin]; [discriminate|]); contradiction].
      inversion Hin; subst kws.
      apply (detect_in_first [] _ "greeting").
      - intros key' kws' [].
      - now apply any_keyword_iff. }
    rewrite process_command_eq, Hdet. reflexivity.
  - intros Hnone.
    assert (Hdet : intent (analyze user_input) = UNKNOWN).
    { rewrite analyze_eq. simpl intent. apply detect_in_none.
      intros key kws Hin. apply any_keyword_false_iff.
      intros kw Hkw. now apply (Hnone key kws kw). }
    rewrite process_command_eq, Hdet. reflexivity.
Qed.

(** The witness: "Good Morning!" and "thanks". *)
Lemma greeting_and_unknown_answers_witness :
  process_command "Good Morning!" Sample.healthy
  = (Returned "Good to see you. How can I assist you today?",
     record (Analyze "Good Morning!") Sample.healthy)
  /\ process_command "thanks" Sample.healthy
     = (Returned "I did not understand that. Could you please repeat?",
        record (Analyze "thanks") Sample.healthy).
Proof.
  destruct (greeting_and_unknown_answers "Good Morning!" Sample.healthy) as (Hg & _).
  destruct (greeting_and_unknown_answers "thanks" Sample.healthy) as (_ & Hu).
  split.
  - apply (Hg ["hello"; "hi"; "hey jarvis"; "good morning"; "good evening"]).
    + simpl. tauto.
    + exists "good morning". split; [simpl; tauto|].
      exists "", "!". reflexivity.
  - apply Hu. intros key kws kw Hin Hkw. apply contains_false_iff.
    simpl in Hin.
    repeat (destruct Hin as [Hin|Hin];
            [inversion Hin; subst; clear Hin;
             simpl in Hkw; repeat destruct Hkw as [<-|Hkw];
             try reflexivity; contradiction|]).
    contradiction.
Defined.

End DispatcherWhole.

(** ** What a save can and cannot do *)

Section SaveOutcomes.
Import PyStr NLPEngine JARVIS.
Local Open Scope py_scope.

Ltac split_on_named_faults :=
  repeat match goal with
    | |- context [match io_fault ?w ?n with _ => _ end] =>
        let E := fresh "Hfault" in
        destruct (io_fault w n) as [[]|] eqn:E; simpl
    end.

Ltac unfold_save :=
  cbv [save_interaction try_except save_body bind now_isoformat
       load_conversations log_file_exists open_read json_load open_write
       json_dump file_operation emit act ret logger_error].

(** Whatever the file and the faults, a save returns or is interrupted, and
    leaves the assistant's own state alone. *)
Lemma save_interaction_cases (u r : string) (w : World) :
  running (snd (save_interaction u r w)) = running w
  /\ io_fault (snd (save_interaction u r w)) = io_fault w
  /\ ai_name (snd (save_interaction u r w)) = ai_name w
  /\ audio_backend (snd (save_interaction u r w)) = audio_backend w
  /\ (fst (save_interaction u r w) = Returned tt
      \/ (fst (save_interaction u r w) = Raised KeyboardInterrupt
          /\ exists n, io_fault w n = Some KeyboardInterrupt)).
Proof.
  unfold_save. simpl.
  destruct (log_file w) eqn:Hfile;
    repeat (progress (simpl; rewrite ?Hfile; split_on_named_faults));
    repeat split; auto;
    right; (split; [reflexivity | eexists; eassumption]).
Qed.

(** X12.  [save_interaction] lets no [Exception] out: whatever the state of
    the file and whichever file operations fail, it returns, except for a
    [KeyboardInterrupt] raised by one of these operations, which passes
    through.  The running flag is as before in either case. *)
Theorem save_interaction_contains_exceptions (u r : string) (w : World) :
  (fst (save_interaction u r w) = Returned tt
   \/ (fst (save_interaction u r w) = Raised KeyboardInterrupt
       /\ exists n, io_fault w n = Some KeyboardInterrupt))
  /\ running (snd (save_interaction u r w)) = running w.
Proof.
  destruct (save_interaction_cases u r w) as (Hrun & _ & _ & _ & Hout). auto.
Qed.




(** X14.  Which failure costs what, for a log that holds entries: when
    opening or decoding the file or opening it for writing fails, the
    entries are still there and only the new one is lost; when the dump
    itself fails, the file has been emptied already and all earlier entries
    are lost with it.  The save returns in each case. *)
Theorem dump_failure_loses_the_log
    (u r : string) (w : World) (old : list Interaction) (e : exn) :
  log_file w = Stored old ->
  is_Exception e = true ->
  let k := io_ops w in
  ((io_fault w k = Some e
    \/ (io_fault w k = None /\ io_fault w (S k) = Some e)
    \/ (io_fault w k = None /\ io_fault w (S k) = None
        /\ io_fault w (S (S k)) = Some e)) ->
   fst (save_interaction u r w) = Returned tt
   /\ log_file (snd (save_interaction u r w)) = Stored old)
  /\ (io_fault w k = None -> io_fault w (S k) = None ->
      io_fault w (S (S k)) = None -> io_fault w (S (S (S k))) = Some e ->
      fst (save_interaction u r w) = Returned tt
      /\ log_file (snd (save_interaction u r w)) = Unreadable).
Proof.
  intros Hfile He k. subst k. split.
  - intros [H0 | [[H0 H1] | (H0 & H1 & H2)]]; unfold_save;
      repeat (progress (simpl; rewrite ?Hfile, ?H0, ?H1, ?H2, ?He)); auto.
  - intros H0 H1 H2 H3. unfold_save.
    repeat (progress (simpl; rewrite ?Hfile, ?H0, ?H1, ?H2, ?H3, ?He)); auto.
Qed.

(** The witness: one entry is in the log when the disk fills up during the
    dump of the second. *)
Lemma dump_failure_loses_the_log_witness :
  let w := set_log_file
             (Stored [{| timestamp := "t"; user_input := "hello"; response := "hi" |}])
             (Sample.world (fun n => match n with
                                     | 3 => Some (OSError "No space left on device")
                                     | _ => None
                                     end)) in
  fst (save_interaction "lock" "ok" w) = Returned tt
  /\ log_file (snd (save_interaction "lock" "ok" w)) = Unreadable.
Proof.
  intros w.
  apply (dump_failure_loses_the_log "lock" "ok" w
           [{| timestamp := "t"; user_input := "hello"; response := "hi" |}]
           (OSError "No space left on device")); reflexivity.
Defined.

End SaveOutcomes.

(** ** Whole sessions *)

Section Sessions.
Import PyStr NLPEngine JARVIS.
Local Open Scope py_scope.

Lemma after_request_frame (u : string) (w : World) :
  running (after_request u w) = running w
  /\ io_fault (after_request u w) = io_fault w
  /\ ai_name (after_request u w) = ai_name w
  /\ audio_backend (after_request u w) = audio_backend w
  /\ log_file (after_request u w) = log_file w.
Proof.
  unfold after_request. destruct (intent (analyze u)); repeat split.
Qed.


Lemma voice_turn_eq (line : string) :
  voice_turn line = turn ("User: " ++ line) line.
Proof. reflexivity. Qed.

(** A turn returns or is interrupted, and keeps the assistant running. *)
Lemma turn_cases (msg line : string) (w : World) :
  running (snd (turn msg line w)) = running w
  /\ io_fault (snd (turn msg line w)) = io_fault w
  /\ ai_name (snd (turn msg line w)) = ai_name w
  /\ (fst (turn msg line w) = Returned tt
      \/ (fst (turn msg line w) = Raised KeyboardInterrupt
          /\ exists n, io_fault w n = Some KeyboardInterrupt)).
Proof.
  unfold turn, bind, logger_info, speak, emit, act.
  destruct (process_command_cases line (record (Log INFO msg) w))
    as (answer & -> & _).
  destruct (after_request_frame line (record (Log INFO msg) w))
    as (Hrun & Hio & Hname & _ & _).
  destruct (save_interaction_cases line answer
              (record (Speak answer) (after_request line (record (Log INFO msg) w))))
    as (Hrun' & Hio' & Hname' & _ & Hout).
  simpl in *. rewrite Hrun', Hio', Hname', Hrun, Hio, Hname.
  rewrite Hio in Hout. repeat split; auto.
Qed.

Lemma text_loop_eof (w : World) :
  running w = true ->
  text_loop [] w = (Returned [], halted (record (Input "You: ") w)).
Proof. intros H. simpl. rewrite H. reflexivity. Qed.

Lemma text_loop_interrupt (rest : list console_in) (w : World) :
  running w = true ->
  text_loop (CtrlC :: rest) w = (Returned rest, halted (record (Input "You: ") w)).
Proof. intros H. simpl. rewrite H. reflexivity. Qed.



(** X7.  End of input and an interrupt at the prompt end text mode the way
    an exit word does: the assistant stops with the farewell, nothing is
    analyzed or saved, and what follows an interrupt on the console is left
    unread. *)
Theorem end_of_input_stops_text_loop (rest : list console_in) (w : World) :
  running w = true ->
  text_loop [] w = (Returned [], halted (record (Input "You: ") w))
  /\ text_loop (CtrlC :: rest) w
     = (Returned rest, halted (record (Input "You: ") w))
  /\ running (halted (record (Input "You: ") w)) = false
  /\ log_file (halted (record (Input "You: ") w)) = log_file w
  /\ trace (halted (record (Input "You: ") w))
     = (trace w ++ [Input "You: "; Speak "Powering down. Goodbye sir.";
                    Log INFO (ai_name w ++ " stopped")])%list.
Proof.
  intros H. split; [now apply text_loop_eof|].
  split; [now apply text_loop_interrupt|].
  repeat split. simpl. now rewrite <- !app_assoc.
Qed.

(** The witness: an interrupt with a line still waiting. *)
Lemma end_of_input_stops_text_loop_witness :
  text_loop [] Sample.healthy
  = (Returned [], halted (record (Input "You: ") Sample.healthy))
  /\ text_loop [CtrlC; Line "hello"] Sample.healthy
     = (Returned [Line "hello"], halted (record (Input "You: ") Sample.healthy))
  /\ running (halted (record (Input "You: ") Sample.healthy)) = false
  /\ log_file (halted (record (Input "You: ") Sample.healthy))
     = log_file Sample.healthy
  /\ trace (halted (record (Input "You: ") Sample.healthy))
     = (trace Sample.healthy
        ++ [Input "You: "; Speak "Powering down. Goodbye sir.";
            Log INFO (ai_name Sample.healthy ++ " stopped")])%list.
Proof.
  apply (end_of_input_stops_text_loop [Line "hello"] Sample.healthy).
  reflexivity.
Defined.








(** One pass of the voice loop. *)
Lemma voice_loop_step (h : option string) (rest : list (option string)) (w : World) :
  running w = true ->
  voice_loop (h :: rest) w =
  match truthy h with
  | Some user_input => (voice_turn user_input ;; voice_loop rest) (record (Listen 30) w)
  | None => voice_loop rest (record (Listen 30) w)
  end.
Proof. intros H. simpl. rewrite H. unfold bind at 1. simpl. now destruct (truthy h). Qed.

(** X10.  When [listen] gives nothing, or the empty string, the voice loop
    goes straight to the next [listen]: nothing is analyzed, spoken or
    saved for that round. *)
Theorem voice_nothing_heard (h : option string) (rest : list (option string)) (w : World) :
  running w = true ->
  h = None \/ h = Some "" ->
  voice_loop (h :: rest) w = voice_loop rest (record (Listen 30) w)
  /\ trace (record (Listen 30) w) = (trace w ++ [Listen 30])%list
  /\ log_file (record (Listen 30) w) = log_file w.
Proof.
  intros Hrun Hh. rewrite (voice_loop_step h rest w Hrun).
  destruct Hh as [-> | ->]; repeat split.
Qed.

(** The witness: silence, then "hello". *)
Lemma voice_nothing_heard_witness :
  voice_loop [None; Some "hello"] Sample.healthy
  = voice_loop [Some "hello"] (record (Listen 30) Sample.healthy)
  /\ trace (record (Listen 30) Sample.healthy) = (trace Sample.healthy ++ [Listen 30])%list
  /\ log_file (record (Listen 30) Sample.healthy) = log_file Sample.healthy.
Proof.
  apply (voice_nothing_heard None [Some "hello"] Sample.healthy).
  - reflexivity.
  - now left.
Defined.

(** A save only adds to what the assistant has done. *)
Lemma save_interaction_trace_grows (u r : string) (w : World) :
  exists more, trace (snd (save_interaction u r w)) = (trace w ++ more)%list.
Proof.
  cbv [save_interaction try_except save_body bind now_isoformat
       load_conversations log_file_exists open_read json_load open_write
       json_dump file_operation emit act ret logger_error]. simpl.
  destruct (log_file w) eqn:Hfile;
    repeat (progress (simpl; rewrite ?Hfile;
              repeat match goal with
                | |- context [match io_fault ?w ?n with _ => _ end] =>
                    destruct (io_fault w n) as [[]|]; simpl
                end));
    rewrite <- ?app_assoc; eexists; reflexivity.
Qed.

(** X11.  Voice mode has no exit word: whatever text is heard, "exit" and
    "shutdown" included, it is handled as a request, the assistant is still
    running afterwards and the loop goes on listening. *)
Theorem voice_mode_has_no_exit (u : string) (rest : list (option string)) (w : World) :
  running w = true ->
  falsy u = false ->
  voice_loop (Some u :: rest) w
  = (voice_turn u ;; voice_loop rest) (record (Listen 30) w)
  /\ running (snd (voice_turn u (record (Listen 30) w))) = true
  /\ exists answer,
       fst (process_command u (record (Log INFO ("User: " ++ u)) (record (Listen 30) w)))
       = Returned answer
       /\ In (Speak answer) (trace (snd (voice_turn u (record (Listen 30) w)))).
Proof.
  intros Hrun Hne. rewrite (voice_loop_step (Some u) rest w Hrun).
  unfold truthy. rewrite Hne. split; [reflexivity|]. rewrite voice_turn_eq.
  destruct (turn_cases ("User: " ++ u) u (record (Listen 30) w)) as (Hrun1 & _).
  split; [now rewrite Hrun1|].
  unfold turn, bind, logger_info, speak, emit, act.
  destruct (process_command_cases u (record (Log INFO ("User: " ++ u)) (record (Listen 30) w)))
    as (answer & -> & _).
  exists answer. split; [reflexivity|].
  set (w1 := record (Speak answer) _).
  destruct (save_interaction_trace_grows u answer w1) as (more & Hmore).
  destruct (save_interaction u answer w1) as [o w2]. simpl in *.
  rewrite Hmore. subst w1. simpl.
  apply in_or_app. left. apply in_or_app. right. now left.
Qed.

(** The witness: "exit" heard in voice mode. *)
Lemma voice_mode_has_no_exit_witness :
  voice_loop [Some "exit"] Sample.healthy
  = (voice_turn "exit" ;; voice_loop []) (record (Listen 30) Sample.healthy)
  /\ running (snd (voice_turn "exit" (record (Listen 30) Sample.healthy))) = true
  /\ exists answer,
       fst (process_command "exit"
              (record (Log INFO ("User: " ++ "exit")) (record (Listen 30) Sample.healthy)))
       = Returned answer
       /\ In (Speak answer)
            (trace (snd (voice_turn "exit" (record (Listen 30) Sample.healthy)))).
Proof.
  apply (voice_mode_has_no_exit "exit" [] Sample.healthy); reflexivity.
Defined.



End Sessions.

(** ** The voice engine *)

Section Voice.
Import PyStr JARVIS.



Ltac unfold_voice :=
  cbv [VoiceEngine.listen VoiceEngine.speak VoiceEngine.vtry VoiceEngine.vbind
       VoiceEngine.call VoiceEngine.print VoiceEngine.recognize_google
       VoiceEngine.vret].

Ltac split_on_device_faults :=
  repeat match goal with
    | |- context [match VoiceEngine.fault ?d ?n with _ => _ end] =>
        let E := fresh "Hfault" in
        destruct (VoiceEngine.fault d n) as [[]|] eqn:E; simpl
    end.

(** X17.  [listen] lets no [Exception] out and gives lower-case text: its
    result, when there is one, is the lower-cased answer of the recognizer.
    Without speech_recognition or without a backend it returns nothing
    and calls nothing.  When the microphone cannot be opened it prints the
    error and returns nothing. *)
Theorem listen_is_contained_and_lower_case
    (self : VoiceEngine.Self) (timeout : Z) (d : VoiceEngine.Device) :
  let r := VoiceEngine.listen self timeout d in
  (forall e, fst r = Raised e -> e = KeyboardInterrupt)
  /\ (forall u, fst r = Returned (Some u) ->
        lower u = u /\ exists n, u = lower (VoiceEngine.transcript d n))
  /\ (VoiceEngine.sr_available self = false \/ VoiceEngine.audio_backend self = None ->
      r = (Returned None, d))
  /\ (forall e,
         VoiceEngine.sr_available self = true ->
         VoiceEngine.audio_backend self = Some "pyaudio" ->
         VoiceEngine.fault d (VoiceEngine.count d) = Some e ->
         is_Exception e = true ->
         fst r = Returned None
         /\ VoiceEngine.calls (snd r)
            = (VoiceEngine.calls d
               ++ [VoiceEngine.OpenMicrophone;
                   VoiceEngine.PrintLine ("Audio error (pyaudio): " ++ str_exn e)])%list).
Proof.
  destruct self as [sr backend]. simpl.
  repeat split.
  - intros e. unfold_voice. simpl.
    destruct sr; simpl; [|discriminate].
    destruct backend as [b|]; [|discriminate].
    destruct (b =? "pyaudio"); [|destruct (b =? "sounddevice")];
      simpl; split_on_device_faults; intros H; inversion H; reflexivity.
  - revert H. unfold_voice. simpl.
    destruct sr; simpl; [|discriminate].
    destruct backend as [b|]; [|discriminate].
    destruct (b =? "pyaudio"); [|destruct (b =? "sounddevice")];
      simpl; split_on_device_faults; intros H; inversion H; apply lower_idem.
  - revert H. unfold_voice. simpl.
    destruct sr; simpl; [|discriminate].
    destruct backend as [b|]; [|discriminate].
    destruct (b =? "pyaudio"); [|destruct (b =? "sounddevice")];
      simpl; split_on_device_faults; intros H; inversion H; eexists; reflexivity.
  - intros [-> | ->]; [reflexivity|]. unfold VoiceEngine.listen.
    now destruct sr.
  - revert H H0 H1 H2. intros -> Hb Hf He. inversion Hb; subst.
    unfold_voice. simpl. rewrite Hf, He. reflexivity.
  - revert H H0 H1 H2. intros -> Hb Hf He. inversion Hb; subst.
    unfold_voice. simpl. rewrite Hf, He. simpl. now rewrite <- app_assoc.
Qed.

(** The witness: "Hello Jarvis" recognized through sounddevice, and a
    microphone that cannot be opened. *)
Lemma listen_is_contained_and_lower_case_witness :
  (lower "hello jarvis" = "hello jarvis"
   /\ exists n, "hello jarvis" = lower (VoiceEngine.transcript SampleDevice.working n))
  /\ (fst (VoiceEngine.listen SampleDevice.with_pyaudio 30 SampleDevice.no_microphone)
      = Returned None
      /\ VoiceEngine.calls
           (snd (VoiceEngine.listen SampleDevice.with_pyaudio 30 SampleDevice.no_microphone))
         = (VoiceEngine.calls SampleDevice.no_microphone
            ++ [VoiceEngine.OpenMicrophone;
                VoiceEngine.PrintLine
                  ("Audio error (pyaudio): "
                   ++ str_exn (OSError "No Default Input Device Available"))])%list).
Proof.
  split.
  - destruct (listen_is_contained_and_lower_case
                SampleDevice.with_sounddevice 30 SampleDevice.working)
      as (_ & H & _).
    apply (H "hello jarvis"). reflexivity.
  - destruct (listen_is_contained_and_lower_case
                SampleDevice.with_pyaudio 30 SampleDevice.no_microphone)
      as (_ & _ & _ & H).
    apply (H (OSError "No Default Input Device Available")); reflexivity.
Defined.

(** X18.  Through sounddevice, [listen] records at most ten seconds: the
    number of frames it asks for is 16000 times the timeout capped at 10,
    hence never more than 160000, and exactly 160000 for the 30 seconds the
    main loop passes. *)
Theorem recording_is_capped
    (self : VoiceEngine.Self) (timeout : Z) (d : VoiceEngine.Device) (frames : Z) :
  In (VoiceEngine.Rec frames) (VoiceEngine.calls (snd (VoiceEngine.listen self timeout d))) ->
  ~ In (VoiceEngine.Rec frames) (VoiceEngine.calls d) ->
  frames = (Z.min timeout 10 * 16000)%Z
  /\ (frames <= 160000)%Z
  /\ (10 <= timeout -> frames = 160000)%Z.
Proof.
  destruct self as [sr backend]. unfold_voice. simpl.
  assert (Hcap : forall f, VoiceEngine.Rec (Z.min timeout 10 * 16000) = VoiceEngine.Rec f ->
                  f = (Z.min timeout 10 * 16000)%Z
                  /\ (f <= 160000)%Z /\ (10 <= timeout -> f = 160000)%Z).
  { intros f H. inversion H. subst f. lia. }
  destruct sr; simpl; [|tauto].
  destruct backend as [b|]; [|tauto].
  destruct (b =? "pyaudio"); [|destruct (b =? "sounddevice")];
    simpl; split_on_device_faults; intros Hin Hnot;
    repeat (apply in_app_or in Hin; destruct Hin as [Hin|Hin]);
    try contradiction; simpl in Hin;
    repeat (destruct Hin as [Hin|Hin]; try discriminate; try contradiction);
    now apply Hcap.
Qed.

(** The witness: the call the main loop makes, [listen(timeout=30)]. *)
Lemma recording_is_capped_witness :
  160000%Z = (Z.min 30 10 * 16000)%Z
  /\ (160000 <= 160000)%Z
  /\ (10 <= 30 -> 160000 = 160000)%Z.
Proof.
  apply (recording_is_capped SampleDevice.with_sounddevice 30 SampleDevice.working 160000).
  - simpl. tauto.
  - simpl. tauto.
Defined.





End Voice.
